(** * terraform-ai-agent: the retrieval-augmented generation pipeline

    A shallow embedding of [app/rag_engine.py] (class [TerraformRAGEngine])
    and of the parts of [app/azure_terraform_agent.py] that construct the
    engine and render its failures, followed by the properties of the
    pipeline contract.

    Text is modelled as [string]: a sequence of code points below 256
    (Latin-1), which is where the literals of the source live, but for the
    prefix of one logged message ([warning_sign]).  The
    external services (chat model, embedding model, vector index, file
    system) are fields of an environment record; every call to one of them
    is recorded in a chronological trace. *)

From Stdlib Require Import Ascii String List Bool PeanoNat.
From stdpp Require Import base option gmap strings list fin_maps.

Local Open Scope string_scope.
Local Open Scope list_scope.

(** ** Python's [str] methods, as far as the engine uses them *)

Module Py.

(** [str.isspace] on one code point below 256: U+0009..U+000D,
    U+001C..U+0020, U+0085 and U+00A0. *)
Definition is_space (c : ascii) : bool :=
  let n := nat_of_ascii c in
  (((9 <=? n) && (n <=? 13)) || ((28 <=? n) && (n <=? 32))
   || (n =? 133) || (n =? 160))%nat.

(** [str.lower] on one code point below 256: A..Z, and the Latin-1 capitals
    U+00C0..U+00DE except the multiplication sign U+00D7. *)
Definition lower_char (c : ascii) : ascii :=
  let n := nat_of_ascii c in
  if (((65 <=? n) && (n <=? 90))
      || ((192 <=? n) && (n <=? 222) && negb (n =? 215)))%nat
  then ascii_of_nat (n + 32) else c.

(** [s.lower()] *)
Fixpoint lower (s : string) : string :=
  match s with
  | EmptyString => EmptyString
  | String c r => String (lower_char c) (lower r)
  end.

(** [s.lstrip()] *)
Fixpoint lstrip (s : string) : string :=
  match s with
  | EmptyString => EmptyString
  | String c r => if is_space c then lstrip r else s
  end.

(** [s.rstrip()]: a character is dropped when it is white space and
    everything after it has been dropped. *)
Fixpoint rstrip (s : string) : string :=
  match s with
  | EmptyString => EmptyString
  | String c r =>
      match rstrip r with
      | EmptyString => if is_space c then EmptyString else String c EmptyString
      | r' => String c r'
      end
  end.

(** [s.strip()] *)
Definition strip (s : string) : string := rstrip (lstrip s).

(** [s.startswith(p)] *)
Fixpoint startswith (p s : string) : bool :=
  match p, s with
  | EmptyString, _ => true
  | String _ _, EmptyString => false
  | String a p', String b s' => if Ascii.eqb a b then startswith p' s' else false
  end.

(** [s.endswith(p)] *)
Fixpoint endswith (p s : string) : bool :=
  match s with
  | EmptyString => String.eqb p EmptyString
  | String _ s' => String.eqb p s || endswith p s'
  end.

(** [p in s] *)
Fixpoint contains (p s : string) : bool :=
  match s with
  | EmptyString => startswith p EmptyString
  | String _ s' => startswith p s || contains p s'
  end.

(** [s[n:]] *)
Fixpoint slice_from (n : nat) (s : string) : string :=
  match n, s with
  | O, _ => s
  | S _, EmptyString => EmptyString
  | S n', String _ s' => slice_from n' s'
  end.

(** [s.split(sep)] for a separator of one character, which is what both
    call sites pass.  The result is never the empty list. *)
Fixpoint split (sep : ascii) (s : string) : list string :=
  match s with
  | EmptyString => [EmptyString]
  | String c r =>
      if Ascii.eqb c sep then EmptyString :: split sep r
      else match split sep r with
           | [] => [String c EmptyString]
           | h :: t => String c h :: t
           end
  end.

(** [s.replace(old, new)] for a non-empty [old]: occurrences are found left
    to right and do not overlap.  [skip] counts the characters of the
    occurrence just matched that are still to be passed over. *)
Fixpoint replace_from (skip : nat) (old new s : string) : string :=
  match s with
  | EmptyString => EmptyString
  | String c r =>
      match skip with
      | S k => replace_from k old new r
      | O =>
          if startswith old s
          then new +:+ replace_from (String.length old - 1) old new r
          else String c (replace_from 0 old new r)
      end
  end.

Definition replace (old new s : string) : string := replace_from 0 old new s.

(** The double quote, [chr(34)], and the backslash, [chr(92)]. *)
Definition double_quote : ascii := ascii_of_nat 34.
Definition backslash : ascii := ascii_of_nat 92.

(** One lower-case hexadecimal digit. *)
Definition hex_digit (n : nat) : ascii :=
  ascii_of_nat (if (n <? 10)%nat then 48 + n else 87 + n).

(** A code point below 256 that [repr] writes as it is: not a control
    character, not U+007F..U+00A0 and not the soft hyphen U+00AD. *)
Definition is_printable (c : ascii) : bool :=
  let n := nat_of_ascii c in
  negb ((n <? 32) || ((127 <=? n) && (n <=? 160)) || (n =? 173))%nat.

(** What [repr] writes for one character inside the quotes. *)
Definition repr_char (quote c : ascii) : string :=
  let n := nat_of_ascii c in
  if Ascii.eqb c quote || Ascii.eqb c backslash
  then String backslash (String c EmptyString)
  else if (n =? 9)%nat then String backslash "t"
  else if (n =? 10)%nat then String backslash "n"
  else if (n =? 13)%nat then String backslash "r"
  else if is_printable c then String c EmptyString
  else String backslash
         (String "x" (String (hex_digit (n / 16))
                        (String (hex_digit (n mod 16)) EmptyString))).

Fixpoint repr_body (quote : ascii) (s : string) : string :=
  match s with
  | EmptyString => EmptyString
  | String c r => repr_char quote c +:+ repr_body quote r
  end.

(** [repr(s)]: single quotes, unless [s] has a single quote and no double
    quote. *)
Definition repr (s : string) : string :=
  let quote :=
    if contains "'" s && negb (contains (String double_quote EmptyString) s)
    then double_quote else "'"%char in
  String quote (repr_body quote s +:+ String quote EmptyString).

End Py.

(** The line feed, [chr(10)]. *)
Definition LF : ascii := ascii_of_nat 10.

(** ** Exceptions

    Only subclasses of [Exception] are modelled.  The engine and the chat
    front end tell three classes apart: [ValueError] (and its subclasses),
    [FileNotFoundError], and everything else. *)

Inductive exn_class : Type :=
| ValueError
| FileNotFoundError
| OtherException.

(** [exn_msg e] is [str(e)]. *)
Record exn : Type := Exn { exn_cls : exn_class; exn_msg : string }.

Inductive outcome (A : Type) : Type :=
| Returned (a : A)
| Raised (e : exn).
Arguments Returned {A} a.
Arguments Raised {A} e.

(** ** Documents and the world outside the process *)

(** [langchain_core.documents.Document]: the text and its metadata dict. *)
Record document : Type := Document {
  page_content : string;
  metadata : gmap string string
}.

(** The two prompts sent to the chat model directly. *)
Inductive prompt : Type :=
| ValidationPrompt   (* [validation_prompt] of [_validate_query] *)
| TemplatePrompt.    (* [template_prompt] of [_get_relevant_templates] *)

Inductive widget : Type :=
| StError | StWarning | StMarkdown | StCode | StInfo | StDownloadButton.

Inductive role : Type := User | Assistant.

(** What the process does to the outside, in the order it does it. *)
Inductive event : Type :=
| EmbedQuery (text : string)                 (* [embeddings.embed_query] *)
| EmbedDocuments (chunks : list document)    (* [Chroma.from_documents] *)
| LlmInvoke (p : prompt) (query : string)    (* the chat model on a prompt *)
| Retrieve (query : string) (k : nat) (labels : list string)
                                             (* the filtered retriever *)
| Synthesize (query : string) (context : list document)
                                             (* the document chain *)
| St (w : widget) (text : string)            (* a streamlit widget *)
| AppendMessage (r : role) (content : string).
                                             (* [st.session_state.messages] *)

(** A path holds a directory, a text file, or a file whose bytes do not
    decode as text; [detail] is then the codec's message. *)
Inductive fs_node : Type :=
| Dir (entries : list string)
| File (content : string)
| Undecodable (detail : string).

(** The answers of the outside world.  Each service is called at most once
    with a given argument in one run of the functions below, so a function
    of the argument loses nothing. *)
Record env : Type := Env {
  getenv : string -> option string;            (* [os.getenv] *)
  fs : gmap string fs_node;                    (* the file system, by path *)
  app_parent : string;     (* [os.path.dirname(os.path.dirname(__file__))] *)
  new_embeddings : outcome unit;               (* [OpenAIEmbeddings()] *)
  embed_query : string -> outcome nat;
      (* the length of the vector [embed_query] returns *)
  new_chat : outcome unit;                     (* [ChatOpenAI(...)] *)
  split_text : string -> list string;
      (* [RecursiveCharacterTextSplitter.split_text] *)
  from_documents : list document -> outcome unit;
      (* [Chroma.from_documents]: embeds and stores the chunks *)
  llm : prompt -> string -> outcome string;
      (* [.content] of the chat model's reply *)
  retrieve : list document -> string -> nat -> list string
             -> outcome (list document);
      (* similarity search in an index, restricted to the labels *)
  synthesize : string -> list document -> outcome (gmap string string)
      (* the response dict of the retrieval chain, text entries *)
}.

(** An event that goes over the network. *)
Definition is_network (e : event) : bool :=
  match e with
  | EmbedQuery _ | EmbedDocuments _ | LlmInvoke _ _
  | Retrieve _ _ _ | Synthesize _ _ => true
  | St _ _ | AppendMessage _ _ => false
  end.

Definition is_classifier_call (e : event) : bool :=
  match e with LlmInvoke TemplatePrompt _ => true | _ => false end.

Definition is_retriever_call (e : event) : bool :=
  match e with Retrieve _ _ _ => true | _ => false end.

Definition is_synthesis_call (e : event) : bool :=
  match e with Synthesize _ _ => true | _ => false end.

(** ** Computations: a trace of events and a result or an exception *)

Definition M (A : Type) : Type := list event -> outcome A * list event.

Definition ret {A} (a : A) : M A := fun t => (Returned a, t).

Definition raise {A} (e : exn) : M A := fun t => (Raised e, t).

Definition bind {A B} (c : M A) (k : A -> M B) : M B :=
  fun t =>
    match c t with
    | (Returned a, t') => k a t'
    | (Raised e, t') => (Raised e, t')
    end.

(** [try: c  except Exception as e: h e] *)
Definition try_except {A} (c : M A) (h : exn -> M A) : M A :=
  fun t =>
    match c t with
    | (Returned a, t') => (Returned a, t')
    | (Raised e, t') => h e t'
    end.

Definition emit (e : event) : M unit := fun t => (Returned tt, t ++ [e]).

(** The answer of an outside service. *)
Definition answer {A} (r : outcome A) : M A := fun t => (r, t).

Declare Scope py_scope.
Delimit Scope py_scope with py.
Notation "x <- c ;; k" := (bind c (fun x => k))
  (at level 100, c at next level, right associativity) : py_scope.
Notation "c ;; k" := (bind c (fun _ => k))
  (at level 100, right associativity) : py_scope.
Local Open Scope py_scope.

(** The trace a computation leaves when started with none, and its result. *)
Definition result {A} (c : M A) : outcome A := fst (c []).
Definition trace {A} (c : M A) : list event := snd (c []).

(** Python truth of a string or [None]. *)
Definition truthy (o : option string) : bool :=
  match o with
  | Some (String _ _) => true
  | _ => false
  end.

(** ** The file system calls *)

(** [os.path.join(a, b)] for two components. *)
Definition path_join (a b : string) : string :=
  if Py.startswith "/" b then b
  else match a with
       | EmptyString => b
       | _ => if Py.endswith "/" a then a +:+ b else a +:+ "/" +:+ b
       end.

(** [os.path.exists(p)] *)
Definition path_exists (E : env) (p : string) : bool :=
  match fs E !! p with
  | Some _ => true
  | None => false
  end.

(** [os.listdir(p)]; the message of an [OSError] ends with [repr(p)]. *)
Definition listdir (E : env) (p : string) : M (list string) :=
  match fs E !! p with
  | Some (Dir entries) => ret entries
  | Some (File _) | Some (Undecodable _) =>
      raise (Exn OtherException
               ("[Errno 20] Not a directory: " +:+ Py.repr p))
  | None =>
      raise (Exn FileNotFoundError
               ("[Errno 2] No such file or directory: " +:+ Py.repr p))
  end.

(** [open(p, 'r').read()]; a file that does not decode raises
    [UnicodeDecodeError], a subclass of [ValueError]. *)
Definition read_file (E : env) (p : string) : M string :=
  match fs E !! p with
  | Some (File content) => ret content
  | Some (Undecodable detail) => raise (Exn ValueError detail)
  | Some (Dir _) =>
      raise (Exn OtherException
               ("[Errno 21] Is a directory: " +:+ Py.repr p))
  | None =>
      raise (Exn FileNotFoundError
               ("[Errno 2] No such file or directory: " +:+ Py.repr p))
  end.

(** Modelled from the spec: the Chunker.  [split_documents] belongs to the
    text splitter library, which is not part of the repository; the spec
    describes it as a pure function from a document to an ordered sequence
    of chunks, each a text span with the type label inherited from its
    document.  The windowing itself is the environment's [split_text]. *)
Definition chunks_of (E : env) (d : document) : list document :=
  map (fun text => Document text (metadata d)) (split_text E (page_content d)).

Definition split_documents (E : env) (documents : list document)
  : list document :=
  flat_map (chunks_of E) documents.

(** ** [class TerraformRAGEngine] *)

Module TerraformRAGEngine.

Record t : Type := Engine {
  template_dir : string;
  vector_store : list document    (* the chunks held by the index *)
}.

Definition default_templates : list string := ["virtual_machine"; "storage"].

(** [result.content.strip().lower().split('\n')] *)
Definition response_lines (content : string) : list string :=
  Py.split LF (Py.lower (Py.strip content)).

(** The body of [for line in response_lines] on [(is_valid, reason)]. *)
Definition scan_line (st : bool * string) (line : string) : bool * string :=
  let '(is_valid, reason) := st in
  if Py.startswith "valid:" line
  then (Py.contains "true" (Py.lower line), reason)
  else if Py.startswith "reason:" line
  then (is_valid, Py.strip (Py.slice_from 7 line))
  else (is_valid, reason).

Definition scan_lines (lines : list string) : bool * string :=
  fold_left scan_line lines (false, "Invalid query format").

Definition _validate_query (E : env) (query : string) : M (bool * string) :=
  try_except
    (emit (LlmInvoke ValidationPrompt query);;
     content <- answer (llm E ValidationPrompt query);;
     ret (scan_lines (response_lines content)))
    (fun e => ret (false, "Error validating query: " +:+ exn_msg e)).

(** The loop of [_load_templates] over the directory listing. *)
Fixpoint load_files (E : env) (dir : string) (names : list string)
    (documents : list document) : M (list document) :=
  match names with
  | [] => ret documents
  | filename :: rest =>
      if Py.endswith ".tf" filename
      then
        content <- read_file E (path_join dir filename);;
        let template_type := Py.replace ".tf" EmptyString filename in
        let doc := Document content
                     (<["source" := filename]>
                        (<["type" := template_type]> ∅)) in
        load_files E dir rest (documents ++ [doc])
      else load_files E dir rest documents
  end.

Definition _load_templates (E : env) (dir : string) : M (list document) :=
  names <- listdir E dir;;
  load_files E dir names [].

(** Returns the chunks handed to the index, which [__init__] keeps as
    [self.vector_store]. *)
Definition _initialize_vector_store (E : env) (dir : string)
  : M (list document) :=
  documents <- _load_templates E dir;;
  let splits := split_documents E documents in
  emit (EmbedDocuments splits);;
  answer (from_documents E splits);;
  ret splits.

Definition __init__ (E : env) (dir : string) : M t :=
  (if truthy (getenv E "OPENAI_API_KEY") then ret tt
   else raise (Exn ValueError
                 "OpenAI API key not found in environment variables"));;
  try_except
    (answer (new_embeddings E);;
     emit (EmbedQuery "test");;
     test_result <- answer (embed_query E "test");;
     match test_result with
     | O => raise (Exn ValueError "Failed to generate embeddings")
     | S _ => ret tt
     end)
    (fun e => raise (Exn ValueError
                       ("Failed to initialize OpenAI embeddings: "
                        +:+ exn_msg e)));;
  try_except
    (answer (new_chat E))
    (fun e => raise (Exn ValueError
                       ("Failed to initialize ChatOpenAI: " +:+ exn_msg e)));;
  store <- _initialize_vector_store E dir;;
  ret (Engine dir store).

Definition _get_relevant_templates (E : env) (query : string)
  : M (list string) :=
  try_except
    (emit (LlmInvoke TemplatePrompt query);;
     content <- answer (llm E TemplatePrompt query);;
     match content with
     | EmptyString => ret default_templates
     | _ => ret (map Py.strip (Py.split "," content))
     end)
    (fun e =>
       emit (St StError ("Error in template selection: " +:+ exn_msg e));;
       ret default_templates).

(** [retrieval_chain.invoke({"input": query})]: the retriever, with
    [k = 5] and the label filter, then the document chain on what it found. *)
Definition retrieval_chain (E : env) (self : t) (labels : list string)
    (query : string) : M (gmap string string) :=
  emit (Retrieve query 5 labels);;
  context <- answer (retrieve E (vector_store self) query 5 labels);;
  emit (Synthesize query context);;
  answer (synthesize E query context).

Definition generate_terraform (E : env) (self : t) (query : string)
  : M string :=
  try_except
    (v <- _validate_query E query;;
     let '(is_valid, reason) := v in
     if negb is_valid
     then raise (Exn ValueError ("Query is out of scope: " +:+ reason))
     else
       relevant_types <- _get_relevant_templates E query;;
       response <- retrieval_chain E self relevant_types query;;
       match response !! "answer" with
       | None => raise (Exn ValueError "No response generated from the model")
       | Some text => ret text
       end)
    (fun e =>
       match exn_cls e with
       | ValueError => raise e
       | _ =>
           emit (St StError ("Error in generate_terraform: " +:+ exn_msg e));;
           raise (Exn OtherException
                    ("Failed to generate Terraform configuration: "
                     +:+ exn_msg e))
       end).

End TerraformRAGEngine.

(** ** [class AzureTerraformAgent] and the chat front end *)

Module AzureTerraformAgent.

Record t : Type := Agent {
  template_dir : string;
  rag_engine : TerraformRAGEngine.t
}.

Definition __init__ (E : env) : M t :=
  (if truthy (getenv E "OPENAI_API_KEY") then ret tt
   else raise (Exn ValueError "Missing OPENAI_API_KEY environment variable"));;
  let dir := path_join (app_parent E) "templates" in
  (if path_exists E dir then ret tt
   else raise (Exn FileNotFoundError
                 ("Template directory not found: " +:+ dir)));;
  engine <- TerraformRAGEngine.__init__ E dir;;
  ret (Agent dir engine).

Definition generate_terraform (E : env) (self : t) (user_input : string)
  : M string :=
  TerraformRAGEngine.generate_terraform E (rag_engine self) user_input.

End AzureTerraformAgent.

(** The text of the [st.markdown] under the warning, with its line feeds
    and indentation. *)
Definition scope_guidance : string :=
  String LF "                    Please ensure your query is related to Azure infrastructure deployment and includes supported resources:"
  +:+ String LF "                    - Virtual Machines"
  +:+ String LF "                    - AKS (Azure Kubernetes Service)"
  +:+ String LF "                    - Storage Accounts"
  +:+ String LF "                    - Virtual Networks"
  +:+ String LF "                    - Load Balancers"
  +:+ String LF "                    ".

(** The text of the [st.info] under a generated configuration. *)
Definition usage_info : string :=
  String LF "                    To use this configuration:"
  +:+ String LF "                    1. Download the generated Terraform file"
  +:+ String LF "                    2. Initialize Terraform: `terraform init`"
  +:+ String LF "                    3. Review the plan: `terraform plan`"
  +:+ String LF "                    4. Apply the configuration: `terraform apply`"
  +:+ String LF "                    ".

(** The six characters that open the logged warning: U+201A U+00F6 U+2020
    U+00D4 U+220F U+00E8.  Those below 256 stand as themselves; the three
    above, which a [string] cannot hold, as their UTF-8 bytes. *)
Definition warning_sign : string :=
  String (ascii_of_nat 226) (String (ascii_of_nat 128) (String (ascii_of_nat 154)
  (String (ascii_of_nat 246)
  (String (ascii_of_nat 226) (String (ascii_of_nat 128) (String (ascii_of_nat 160)
  (String (ascii_of_nat 212)
  (String (ascii_of_nat 226) (String (ascii_of_nat 136) (String (ascii_of_nat 143)
  (String (ascii_of_nat 232) EmptyString))))))))))).

(** [azure_terraform_chat] from the moment a prompt is entered. *)
Definition azure_terraform_chat (E : env) (agent : AzureTerraformAgent.t)
    (prompt : string) : M unit :=
  emit (AppendMessage User prompt);;
  emit (St StMarkdown prompt);;
  try_except
    (terraform_code <- AzureTerraformAgent.generate_terraform E agent prompt;;
     emit (St StMarkdown "### Generated Terraform Configuration");;
     emit (St StCode terraform_code);;
     emit (St StDownloadButton terraform_code);;
     emit (AppendMessage Assistant
             ("Generated Terraform Configuration:" +:+ String LF "```hcl"
              +:+ String LF terraform_code +:+ String LF "```"));;
     emit (St StInfo usage_info))
    (fun e =>
       match exn_cls e with
       | ValueError =>
           emit (St StWarning (exn_msg e));;
           emit (St StMarkdown scope_guidance);;
           emit (AppendMessage Assistant (warning_sign +:+ " " +:+ exn_msg e))
       | _ =>
           emit (St StError
                   ("Error generating Terraform configuration: " +:+ exn_msg e))
       end).

(** ** Sample worlds, used to run the definitions on concrete inputs *)

Definition nl : string := String LF EmptyString.

Definition sample_getenv (k : string) : option string :=
  if String.eqb k "OPENAI_API_KEY" then Some "sk-test" else None.

Definition sample_listing : list string := ["storage.tf"; "README.md"].

Definition sample_fs : gmap string fs_node :=
  <["/srv/templates" := Dir sample_listing]>
    (<["/srv/templates/storage.tf" := File "resource storage_account"]> ∅).

(** A world where every service answers: the validator accepts, the
    classifier says [storage, vnet], the model answers [the_answer]. *)
Definition sample_env : env := {|
  getenv := sample_getenv;
  fs := sample_fs;
  app_parent := "/srv";
  new_embeddings := Returned tt;
  embed_query := fun _ => Returned 3;
  new_chat := Returned tt;
  split_text := fun s => [s];
  from_documents := fun _ => Returned tt;
  llm := fun p _ =>
           match p with
           | ValidationPrompt =>
               Returned ("valid: true" +:+ nl +:+ "reason: storage request")
           | TemplatePrompt => Returned "storage, vnet"
           end;
  retrieve := fun store _ _ _ => Returned store;
  synthesize := fun _ _ => Returned (<["answer" := "resource {}"]> ∅)
|}.

(** The same world with other answers of the chat model. *)
Definition with_llm (f : prompt -> string -> outcome string) (E : env) : env :=
  {| getenv := getenv E; fs := fs E; app_parent := app_parent E;
     new_embeddings := new_embeddings E; embed_query := embed_query E;
     new_chat := new_chat E; split_text := split_text E;
     from_documents := from_documents E; llm := f;
     retrieve := retrieve E; synthesize := synthesize E |}.

(** The same world with another response dict of the retrieval chain. *)
Definition with_synthesize
    (f : string -> list document -> outcome (gmap string string)) (E : env)
  : env :=
  {| getenv := getenv E; fs := fs E; app_parent := app_parent E;
     new_embeddings := new_embeddings E; embed_query := embed_query E;
     new_chat := new_chat E; split_text := split_text E;
     from_documents := from_documents E; llm := llm E;
     retrieve := retrieve E; synthesize := f |}.

(** The same world with another file system. *)
Definition with_fs (m : gmap string fs_node) (E : env) : env :=
  {| getenv := getenv E; fs := m; app_parent := app_parent E;
     new_embeddings := new_embeddings E; embed_query := embed_query E;
     new_chat := new_chat E; split_text := split_text E;
     from_documents := from_documents E; llm := llm E;
     retrieve := retrieve E; synthesize := synthesize E |}.

Definition sample_engine : TerraformRAGEngine.t :=
  TerraformRAGEngine.Engine "/srv/templates" [].

(** The validator's model answers the same text to every query. *)
Definition validator_says (content : string) : env :=
  with_llm (fun p q =>
              match p with
              | ValidationPrompt => Returned content
              | TemplatePrompt => llm sample_env p q
              end) sample_env.

(** The chat model raises on the given prompt. *)
Definition llm_fails_on (p0 : prompt) (e : exn) : env :=
  with_llm (fun p q =>
              match p, p0 with
              | ValidationPrompt, ValidationPrompt => Raised e
              | TemplatePrompt, TemplatePrompt => Raised e
              | _, _ => llm sample_env p q
              end) sample_env.

Definition connection_error : exn := Exn OtherException "Connection error.".

(** ** The parsing policy in the spec's words, and the one that holds

    The spec lets the first line with a key decide; [parse_last_wins] lets
    the last one decide.  Both are compared with [scan_lines] below. *)

Definition verdict_of (line : option string) : bool :=
  match line with
  | Some l => Py.contains "true" l
  | None => false
  end.

Definition reason_of (line : option string) : string :=
  match line with
  | Some l => Py.strip (Py.slice_from 7 l)
  | None => "Invalid query format"
  end.

Definition lines_with (key : string) (lines : list string) : list string :=
  List.filter (Py.startswith key) lines.

Definition parse_first_wins (lines : list string) : bool * string :=
  (verdict_of (head (lines_with "valid:" lines)),
   reason_of (head (lines_with "reason:" lines))).

Definition parse_last_wins (lines : list string) : bool * string :=
  (verdict_of (last (lines_with "valid:" lines)),
   reason_of (last (lines_with "reason:" lines))).

(** What [_get_relevant_templates] makes of the classifier's answer. *)
Definition classified (r : outcome string) : list string :=
  match r with
  | Returned EmptyString => TerraformRAGEngine.default_templates
  | Returned content => map Py.strip (Py.split "," content)
  | Raised _ => TerraformRAGEngine.default_templates
  end.

(** The number of events of a kind in a trace. *)
Definition calls (kind : event -> bool) (tr : list event) : nat :=
  length (List.filter kind tr).

(** The label filter of a retriever call is not empty. *)
Definition filter_not_empty (ev : event) : Prop :=
  match ev with
  | Retrieve _ _ labels => labels <> []
  | _ => True
  end.

(** The failure of a model client on a malformed reply of the service:
    [json.JSONDecodeError], a subclass of [ValueError]. *)
Definition decode_error : exn :=
  Exn ValueError "Expecting value: line 1 column 1 (char 0)".

(** A world whose document chain fails with that error. *)
Definition chain_value_error_env : env :=
  with_synthesize (fun _ _ => Raised decode_error) sample_env.

Definition sample_agent : AzureTerraformAgent.t :=
  AzureTerraformAgent.Agent "/srv/templates" sample_engine.

(** A template directory with a file whose name has [.tf] twice. *)
Definition tfvars_listing : list string :=
  ["storage.tf"; "a.tfvars.tf"; "notes.txt"].

Definition tfvars_fs : gmap string fs_node :=
  <["/srv/templates" := Dir tfvars_listing]>
    (<["/srv/templates/storage.tf" := File "resource storage_account"]>
       (<["/srv/templates/a.tfvars.tf" := File "x = 1"]> ∅)).

Definition tfvars_env : env := with_fs tfvars_fs sample_env.

(** A world with no file at all. *)
Definition empty_fs_env : env := with_fs ∅ sample_env.

(** What [_load_templates] records about the file a document comes from. *)
Definition labelled_by_file (d : document) : Prop :=
  exists filename,
    Py.endswith ".tf" filename = true /\
    metadata d !! "source" = Some filename /\
    metadata d !! "type" = Some (Py.replace ".tf" EmptyString filename).

(** ** Vocabulary for the further properties *)

Definition is_validator_call (e : event) : bool :=
  match e with LlmInvoke ValidationPrompt _ => true | _ => false end.

Definition is_embedding_call (e : event) : bool :=
  match e with EmbedQuery _ | EmbedDocuments _ => true | _ => false end.

Definition is_st_error (e : event) : bool :=
  match e with St StError _ => true | _ => false end.

Definition is_assistant_message (e : event) : bool :=
  match e with AppendMessage Assistant _ => true | _ => false end.

(** The character [c] occurs in [s]. *)
Fixpoint has_char (c : ascii) (s : string) : bool :=
  match s with
  | EmptyString => false
  | String a r => Ascii.eqb a c || has_char c r
  end.

(** The number of occurrences of [c] in [s]. *)
Fixpoint count_char (c : ascii) (s : string) : nat :=
  match s with
  | EmptyString => 0
  | String a r => (if Ascii.eqb a c then 1 else 0) + count_char c r
  end.

(** [sep.join(parts)] for a separator of one character. *)
Fixpoint join_with (sep : ascii) (parts : list string) : string :=
  match parts with
  | [] => EmptyString
  | [p] => p
  | p :: rest => p +:+ String sep (join_with sep rest)
  end.

(** Neither end of [s] is white space. *)
Definition trimmed (s : string) : Prop := Py.strip s = s.

(** The document [_load_templates] builds for a file. *)
Definition template_document (filename content : string) : document :=
  Document content
    (<["source" := filename]>
       (<["type" := Py.replace ".tf" EmptyString filename]> ∅)).

(** The content of the regular file at a path, if there is one. *)
Definition file_content (E : env) (p : string) : option string :=
  match fs E !! p with
  | Some (File content) => Some content
  | _ => None
  end.

(** The same world with other services. *)
Definition with_getenv (f : string -> option string) (E : env) : env :=
  {| getenv := f; fs := fs E; app_parent := app_parent E;
     new_embeddings := new_embeddings E; embed_query := embed_query E;
     new_chat := new_chat E; split_text := split_text E;
     from_documents := from_documents E; llm := llm E;
     retrieve := retrieve E; synthesize := synthesize E |}.

Definition with_embed_query (f : string -> outcome nat) (E : env) : env :=
  {| getenv := getenv E; fs := fs E; app_parent := app_parent E;
     new_embeddings := new_embeddings E; embed_query := f;
     new_chat := new_chat E; split_text := split_text E;
     from_documents := from_documents E; llm := llm E;
     retrieve := retrieve E; synthesize := synthesize E |}.

Definition with_new_chat (r : outcome unit) (E : env) : env :=
  {| getenv := getenv E; fs := fs E; app_parent := app_parent E;
     new_embeddings := new_embeddings E; embed_query := embed_query E;
     new_chat := r; split_text := split_text E;
     from_documents := from_documents E; llm := llm E;
     retrieve := retrieve E; synthesize := synthesize E |}.

Definition with_retrieve
    (f : list document -> string -> nat -> list string
         -> outcome (list document)) (E : env) : env :=
  {| getenv := getenv E; fs := fs E; app_parent := app_parent E;
     new_embeddings := new_embeddings E; embed_query := embed_query E;
     new_chat := new_chat E; split_text := split_text E;
     from_documents := from_documents E; llm := llm E;
     retrieve := f; synthesize := synthesize E |}.

(** A world without the API key. *)
Definition no_key_env : env := with_getenv (fun _ => None) sample_env.

(** A world whose embedding model returns an empty vector. *)
Definition empty_vector_env : env :=
  with_embed_query (fun _ => Returned 0) sample_env.

(** A world whose vector index is unreachable at query time. *)
Definition retrieve_fails_env : env :=
  with_retrieve (fun _ _ _ _ => Raised connection_error) sample_env.

(** A world where [templates] is a regular file. *)
Definition templates_is_file_env : env :=
  with_fs (<["/srv/templates" := File "not a directory"]> ∅) sample_env.

(** A template directory that lists a [.tf] entry which is a directory. *)
Definition broken_listing : list string := ["storage.tf"; "modules.tf"].

Definition broken_fs : gmap string fs_node :=
  <["/srv/templates" := Dir broken_listing]>
    (<["/srv/templates/storage.tf" := File "resource storage_account"]>
       (<["/srv/templates/modules.tf" := Dir []]> ∅)).

Definition broken_env : env := with_fs broken_fs sample_env.

(** A template directory without any [.tf] file. *)
Definition docs_only_listing : list string := ["README.md"; "notes.txt"].

Definition with_from_documents (f : list document -> outcome unit) (E : env)
  : env :=
  {| getenv := getenv E; fs := fs E; app_parent := app_parent E;
     new_embeddings := new_embeddings E; embed_query := embed_query E;
     new_chat := new_chat E; split_text := split_text E;
     from_documents := f; llm := llm E;
     retrieve := retrieve E; synthesize := synthesize E |}.

(** The index refuses to be built from nothing. *)
Definition empty_index_error : exn :=
  Exn ValueError "Expected IDs to be a non-empty list, got 0 IDs".

Definition strict_from_documents (chunks : list document) : outcome unit :=
  match chunks with
  | [] => Raised empty_index_error
  | _ :: _ => Returned tt
  end.

Definition docs_only_env : env :=
  with_from_documents strict_from_documents
    (with_fs (<["/srv/templates" := Dir docs_only_listing]> ∅) sample_env).

(** A template directory with a [.tf] file that does not decode. *)
Definition binary_listing : list string := ["storage.tf"; "logo.tf"].

Definition codec_error : string :=
  "'utf-8' codec can't decode byte 0x89 in position 0: invalid start byte".

Definition binary_fs : gmap string fs_node :=
  <["/srv/templates" := Dir binary_listing]>
    (<["/srv/templates/storage.tf" := File "resource storage_account"]>
       (<["/srv/templates/logo.tf" := Undecodable codec_error]> ∅)).

Definition binary_env : env := with_fs binary_fs sample_env.

(** A service answered rather than raised. *)
Definition returned {A} (r : outcome A) : bool :=
  match r with
  | Returned _ => true
  | Raised _ => false
  end.

(** What an event of one run of [generate_terraform] on [query] may be:
    the chat model and the retriever are asked about this query only, the
    retriever with [k = 5] and the classified labels, and the document
    chain works on what the retriever returned. *)
Definition pipeline_event (E : env) (self : TerraformRAGEngine.t)
    (query : string) (ev : event) : Prop :=
  match ev with
  | LlmInvoke _ q => q = query
  | Retrieve q k labels =>
      q = query /\ k = 5 /\ labels = classified (llm E TemplatePrompt query)
  | Synthesize q context =>
      q = query /\
      retrieve E (TerraformRAGEngine.vector_store self) query 5
        (classified (llm E TemplatePrompt query)) = Returned context
  | St w _ => w = StError
  | EmbedQuery _ | EmbedDocuments _ | AppendMessage _ _ => False
  end.

(** The document for a listed file, from the file system. *)
Definition loaded_document (E : env) (dir filename : string) : document :=
  template_document filename
    (match file_content E (path_join dir filename) with
     | Some content => content
     | None => EmptyString
     end).

(** The retriever or, after it, the document chain raised [cause] in a
    run of [generate_terraform] on [query]. *)
Definition service_raised (E : env) (self : TerraformRAGEngine.t)
    (query : string) (cause : exn) : Prop :=
  retrieve E (TerraformRAGEngine.vector_store self) query 5
    (classified (llm E TemplatePrompt query)) = Raised cause \/
  exists context,
    retrieve E (TerraformRAGEngine.vector_store self) query 5
      (classified (llm E TemplatePrompt query)) = Returned context /\
    synthesize E query context = Raised cause.

(** Where a [ValueError] that leaves [generate_terraform] comes from: the
    rejection of the query, with the validator's reason; a response without
    the key [answer]; or a service, whose exception it then is. *)
Definition value_error_origin (E : env) (self : TerraformRAGEngine.t)
    (query : string) (e : exn) : Prop :=
  (exists reason,
      fst (TerraformRAGEngine._validate_query E query []) =
      Returned (false, reason) /\
      e = Exn ValueError ("Query is out of scope: " +:+ reason)) \/
  (exists context response,
      retrieve E (TerraformRAGEngine.vector_store self) query 5
        (classified (llm E TemplatePrompt query)) = Returned context /\
      synthesize E query context = Returned response /\
      response !! "answer" = None /\
      e = Exn ValueError "No response generated from the model") \/
  service_raised E self query e.

(** * Properties *)

Import TerraformRAGEngine.

(** ** Facts about the string methods *)

Lemma split_not_nil (sep : ascii) (s : string) : Py.split sep s <> [].
Proof.
  induction s as [|c r IH]; simpl; [discriminate|].
  destruct (Ascii.eqb c sep); [discriminate|].
  destruct (Py.split sep r); discriminate.
Qed.

Lemma is_space_lower_char (c : ascii) :
  Py.is_space (Py.lower_char c) = Py.is_space c.
Proof.
  destruct c as [[] [] [] [] [] [] [] []]; reflexivity.
Qed.

Lemma lower_char_idem (c : ascii) :
  Py.lower_char (Py.lower_char c) = Py.lower_char c.
Proof.
  destruct c as [[] [] [] [] [] [] [] []]; reflexivity.
Qed.

Lemma lower_char_LF (c : ascii) :
  Ascii.eqb (Py.lower_char c) LF = Ascii.eqb c LF.
Proof.
  destruct c as [[] [] [] [] [] [] [] []]; reflexivity.
Qed.

Lemma lower_idem (s : string) : Py.lower (Py.lower s) = Py.lower s.
Proof.
  induction s as [|c r IH]; simpl; [reflexivity|].
  now rewrite lower_char_idem, IH.
Qed.

Lemma lstrip_lower (s : string) :
  Py.lstrip (Py.lower s) = Py.lower (Py.lstrip s).
Proof.
  induction s as [|c r IH]; simpl; [reflexivity|].
  rewrite is_space_lower_char.
  destruct (Py.is_space c); [exact IH | reflexivity].
Qed.

Lemma rstrip_lower (s : string) :
  Py.rstrip (Py.lower s) = Py.lower (Py.rstrip s).
Proof.
  induction s as [|c r IH]; simpl; [reflexivity|].
  rewrite IH, is_space_lower_char.
  destruct (Py.rstrip r); simpl; [|reflexivity].
  destruct (Py.is_space c); reflexivity.
Qed.

Lemma strip_lower (s : string) :
  Py.strip (Py.lower s) = Py.lower (Py.strip s).
Proof.
  unfold Py.strip. now rewrite lstrip_lower, rstrip_lower.
Qed.

Lemma split_LF_lower (s : string) :
  Py.split LF (Py.lower s) = map Py.lower (Py.split LF s).
Proof.
  induction s as [|c r IH]; simpl; [reflexivity|].
  rewrite lower_char_LF, IH.
  destruct (Ascii.eqb c LF); simpl; [reflexivity|].
  destruct (Py.split LF r); reflexivity.
Qed.

(** Every response line is in lower case already. *)
Lemma response_lines_lower (content : string) :
  Forall (fun line => Py.lower line = line) (response_lines content).
Proof.
  unfold response_lines. rewrite split_LF_lower.
  apply List.Forall_forall. intros x Hx.
  apply in_map_iff in Hx as (y & <- & _). apply lower_idem.
Qed.

(** A line cannot begin with both keys. *)
Lemma valid_line_not_reason_line (line : string) :
  Py.startswith "valid:" line = true -> Py.startswith "reason:" line = false.
Proof.
  intros H. destruct line as [|c r]; [discriminate H|].
  cbn [Py.startswith] in *.
  destruct (Ascii.eqb_spec "v"%char c) as [<-|];
    [reflexivity | discriminate H].
Qed.

(** ** The validator *)

Example validate_parses_two_lines :
  scan_lines (response_lines ("Valid: TRUE" +:+ nl +:+ "Reason: OK")) =
  (true, "ok").
Proof. reflexivity. Qed.

Example validate_reason_without_verdict :
  scan_lines (response_lines "reason: nope") = (false, "nope").
Proof. reflexivity. Qed.

Lemma validate_query_run (E : env) (query : string) (t : list event) :
  _validate_query E query t =
  (Returned match llm E ValidationPrompt query with
            | Returned content => scan_lines (response_lines content)
            | Raised e => (false, "Error validating query: " +:+ exn_msg e)
            end,
   t ++ [LlmInvoke ValidationPrompt query]).
Proof.
  unfold _validate_query, try_except, bind, emit, answer, ret.
  destruct (llm E ValidationPrompt query); reflexivity.
Qed.

Lemma scan_line_eq (b : bool) (r line : string) :
  scan_line (b, r) line =
  if Py.startswith "valid:" line
  then (Py.contains "true" (Py.lower line), r)
  else if Py.startswith "reason:" line
  then (b, Py.strip (Py.slice_from 7 line))
  else (b, r).
Proof. reflexivity. Qed.

Lemma scan_without_valid (lines : list string) :
  forall st,
    Forall (fun l => Py.startswith "valid:" l = false) lines ->
    fst (fold_left scan_line lines st) = fst st.
Proof.
  induction lines as [|l ls IH]; intros [b r] H; [reflexivity|].
  inversion_clear H as [|? ? Hl Hls].
  cbn [fold_left]. rewrite scan_line_eq, Hl.
  destruct (Py.startswith "reason:" l); now rewrite IH.
Qed.

Lemma scan_without_keys (lines : list string) :
  forall st,
    Forall (fun l => Py.startswith "valid:" l = false) lines ->
    Forall (fun l => Py.startswith "reason:" l = false) lines ->
    fold_left scan_line lines st = st.
Proof.
  induction lines as [|l ls IH]; intros [b r] Hv Hr; [reflexivity|].
  inversion_clear Hv as [|? ? Hl Hls]. inversion_clear Hr as [|? ? Hl' Hls'].
  cbn [fold_left]. rewrite scan_line_eq, Hl, Hl'. now apply IH.
Qed.

Lemma lines_with_snoc (key : string) (lines : list string) (l : string) :
  lines_with key (lines ++ [l]) =
  lines_with key lines ++ (if Py.startswith key l then [l] else []).
Proof.
  unfold lines_with. rewrite List.filter_app. simpl.
  now destruct (Py.startswith key l).
Qed.

Lemma scan_lines_last_wins (lines : list string) :
  Forall (fun l => Py.lower l = l) lines ->
  scan_lines lines = parse_last_wins lines.
Proof.
  unfold scan_lines, parse_last_wins.
  induction lines as [|l ls IH] using rev_ind; intros H; [reflexivity|].
  apply Forall_app in H as [Hls Hl]. inversion_clear Hl as [|? ? Hlow _].
  rewrite fold_left_app, IH by assumption.
  cbn [fold_left]. rewrite scan_line_eq, !lines_with_snoc.
  destruct (Py.startswith "valid:" l) eqn:Hv.
  - rewrite (valid_line_not_reason_line l Hv), app_nil_r, last_snoc, Hlow.
    reflexivity.
  - destruct (Py.startswith "reason:" l) eqn:Hr.
    + now rewrite app_nil_r, last_snoc.
    + now rewrite !app_nil_r.
Qed.

Lemma response_lines_case (c c' : string) :
  Py.lower c' = Py.lower c -> response_lines c' = response_lines c.
Proof.
  intros H. unfold response_lines. now rewrite <- !strip_lower, H.
Qed.

(** C3: when the chat model's call raises inside [_validate_query], the
    function returns [(False, "Error validating query: " + str(e))]; the
    failure is never reported as in scope. *)
Theorem validate_query_llm_failure (E : env) (query : string) (e : exn)
    (t : list event) :
  llm E ValidationPrompt query = Raised e ->
  _validate_query E query t =
  (Returned (false, "Error validating query: " +:+ exn_msg e),
   t ++ [LlmInvoke ValidationPrompt query]).
Proof.
  intros H. now rewrite validate_query_run, H.
Qed.

Lemma validate_query_llm_failure_witness :
  _validate_query (llm_fails_on ValidationPrompt connection_error)
    "create a vm" [] =
  (Returned (false, "Error validating query: Connection error."),
   [LlmInvoke ValidationPrompt "create a vm"]).
Proof.
  apply (validate_query_llm_failure
           (llm_fails_on ValidationPrompt connection_error) "create a vm"
           connection_error []).
  reflexivity.
Defined.

(** C2: when no response line begins with [valid:], [_validate_query]
    returns [is_valid = False]; when no line begins with [reason:] either,
    it returns [(False, "Invalid query format")]. *)
Theorem validate_query_fail_closed (E : env) (query content : string)
    (t : list event) :
  llm E ValidationPrompt query = Returned content ->
  Forall (fun l => Py.startswith "valid:" l = false) (response_lines content) ->
  (exists reason,
      fst (_validate_query E query t) = Returned (false, reason)) /\
  (Forall (fun l => Py.startswith "reason:" l = false)
          (response_lines content) ->
   fst (_validate_query E query t) = Returned (false, "Invalid query format")).
Proof.
  intros Hllm Hv. rewrite validate_query_run, Hllm. simpl. split.
  - exists (snd (scan_lines (response_lines content))).
    f_equal. unfold scan_lines.
    pose proof (scan_without_valid _ (false, "Invalid query format") Hv) as H.
    destruct (fold_left _ _ _) as [b r]. simpl in *. now subst.
  - intros Hr. f_equal. now apply scan_without_keys.
Qed.

Lemma validate_query_fail_closed_witness :
  (exists reason,
      fst (_validate_query (validator_says "I cannot tell.") "hello" []) =
      Returned (false, reason)) /\
  fst (_validate_query (validator_says "I cannot tell.") "hello" []) =
  Returned (false, "Invalid query format").
Proof.
  destruct (validate_query_fail_closed (validator_says "I cannot tell.")
              "hello" "I cannot tell." []) as [H1 H2].
  - reflexivity.
  - repeat constructor.
  - split; [exact H1|]. apply H2. repeat constructor.
Defined.

Lemma first_valid_line_eval :
  let content := "valid: true" +:+ nl +:+ "valid: false" in
  response_lines content = ["valid: true"; "valid: false"] /\
  scan_lines (response_lines content) = (false, "Invalid query format") /\
  parse_first_wins (response_lines content) = (true, "Invalid query format").
Proof. repeat split; reflexivity. Qed.

(** C6, as stated, fails: on the reply [valid: true / valid: false] the
    first [valid:] line says true, and [_validate_query] returns false. *)
Lemma validate_query_first_line_loses :
  let content := "valid: true" +:+ nl +:+ "valid: false" in
  fst (_validate_query (validator_says content) "create a vm" []) <>
  Returned (parse_first_wins (response_lines content)).
Proof. vm_compute. intros H. discriminate H. Qed.

(** C6, amended: the response is scanned in lower case, so the result
    depends on the reply only up to case; the LAST line beginning with
    [valid:] decides the boolean (true iff it contains [true]) and the LAST
    line beginning with [reason:] gives the reason. *)
Theorem validate_query_last_line_wins (E : env) (query content : string)
    (t : list event) :
  llm E ValidationPrompt query = Returned content ->
  fst (_validate_query E query t) =
  Returned (parse_last_wins (response_lines content)) /\
  (forall content',
      Py.lower content' = Py.lower content ->
      response_lines content' = response_lines content).
Proof.
  intros H. rewrite validate_query_run, H. simpl. split.
  - f_equal. apply scan_lines_last_wins, response_lines_lower.
  - intros c'. apply response_lines_case.
Qed.

Lemma validate_query_last_line_wins_witness :
  fst (_validate_query
         (validator_says ("valid: true" +:+ nl +:+ "valid: false"))
         "create a vm" []) =
  Returned (false, "Invalid query format").
Proof.
  destruct (validate_query_last_line_wins
              (validator_says ("valid: true" +:+ nl +:+ "valid: false"))
              "create a vm" ("valid: true" +:+ nl +:+ "valid: false") [])
    as [H _].
  - reflexivity.
  - exact H.
Defined.

(** ** The classifier *)

Example classified_tokens :
  classified (Returned "storage, vnet") = ["storage"; "vnet"] /\
  classified (Returned " ") = [EmptyString] /\
  classified (Returned "database") = ["database"].
Proof. repeat split; reflexivity. Qed.

Lemma get_relevant_templates_run (E : env) (query : string) (t : list event) :
  _get_relevant_templates E query t =
  (Returned (classified (llm E TemplatePrompt query)),
   t ++ LlmInvoke TemplatePrompt query ::
     match llm E TemplatePrompt query with
     | Returned _ => []
     | Raised e => [St StError ("Error in template selection: " +:+ exn_msg e)]
     end).
Proof.
  unfold _get_relevant_templates, try_except, bind, emit, answer, ret.
  destruct (llm E TemplatePrompt query) as [[|c r]|e]; simpl;
    rewrite <- ?app_assoc; reflexivity.
Qed.

Lemma classified_not_nil (r : outcome string) : classified r <> [].
Proof.
  destruct r as [[|c s]|e]; try discriminate.
  unfold classified. intros H. apply map_eq_nil in H.
  now apply split_not_nil in H.
Qed.

(** C4: on an empty reply of the classifier's model, and on any exception
    of its call, [_get_relevant_templates] returns
    [["virtual_machine", "storage"]]. *)
Theorem get_relevant_templates_fallback (E : env) (query : string)
    (t : list event) :
  (llm E TemplatePrompt query = Returned EmptyString \/
   exists e, llm E TemplatePrompt query = Raised e) ->
  fst (_get_relevant_templates E query t) =
  Returned ["virtual_machine"; "storage"].
Proof.
  intros [H | [e H]]; rewrite get_relevant_templates_run, H; reflexivity.
Qed.

Lemma get_relevant_templates_fallback_witness :
  fst (_get_relevant_templates (llm_fails_on TemplatePrompt connection_error)
         "create a vm" []) =
  Returned ["virtual_machine"; "storage"].
Proof.
  apply (get_relevant_templates_fallback
           (llm_fails_on TemplatePrompt connection_error) "create a vm" []).
  right. exists connection_error. reflexivity.
Defined.

(** ** The orchestrator *)

Lemma retrieval_chain_trace (E : env) (self : TerraformRAGEngine.t)
    (labels : list string) (query : string) (t : list event) :
  exists rest,
    snd (retrieval_chain E self labels query t) =
    t ++ Retrieve query 5 labels :: rest /\
    Forall filter_not_empty rest.
Proof.
  unfold retrieval_chain, bind, emit, answer.
  destruct (retrieve E (vector_store self) query 5 labels) as [ctx|e]; simpl.
  - exists [Synthesize query ctx]. rewrite <- app_assoc.
    split; [|repeat constructor].
    now destruct (synthesize E query ctx).
  - exists []. split; [reflexivity | constructor].
Qed.

(** C1: when the validator returns [is_valid = False], [generate_terraform]
    raises [ValueError("Query is out of scope: " + reason)] and the only
    thing it has done is the validator's own model call: no call of the
    classifier, of the retriever or of the synthesis chain. *)
Theorem rejected_query_short_circuits (E : env) (self : TerraformRAGEngine.t)
    (query reason : string) (t : list event) :
  fst (_validate_query E query t) = Returned (false, reason) ->
  exists new,
    generate_terraform E self query t =
    (Raised (Exn ValueError ("Query is out of scope: " +:+ reason)),
     t ++ new) /\
    calls is_classifier_call new = 0 /\
    calls is_retriever_call new = 0 /\
    calls is_synthesis_call new = 0.
Proof.
  intros H. exists [LlmInvoke ValidationPrompt query].
  split; [|repeat split].
  unfold generate_terraform, try_except, bind.
  rewrite validate_query_run in *. simpl in H.
  injection H as H. rewrite H. reflexivity.
Qed.

Lemma rejected_query_short_circuits_witness :
  exists new,
    generate_terraform
      (validator_says ("valid: false" +:+ nl +:+ "reason: not about Azure"))
      sample_engine "how do I cook pasta?" [] =
    (Raised (Exn ValueError "Query is out of scope: not about azure"), new) /\
    calls is_classifier_call new = 0 /\
    calls is_retriever_call new = 0 /\
    calls is_synthesis_call new = 0.
Proof.
  apply (rejected_query_short_circuits
           (validator_says ("valid: false" +:+ nl +:+ "reason: not about Azure"))
           sample_engine "how do I cook pasta?" "not about azure" []).
  reflexivity.
Defined.

Lemma generate_terraform_trace (E : env) (self : TerraformRAGEngine.t)
    (query : string) :
  Forall filter_not_empty (trace (generate_terraform E self query)).
Proof.
  unfold trace, generate_terraform, try_except, bind.
  rewrite validate_query_run.
  destruct (match llm E ValidationPrompt query with
            | Returned content => scan_lines (response_lines content)
            | Raised e => (false, "Error validating query: " +:+ exn_msg e)
            end) as [[|] reason]; simpl; [|repeat constructor].
  rewrite get_relevant_templates_run.
  set (t1 := [LlmInvoke ValidationPrompt query] ++ _).
  assert (Ht1 : Forall filter_not_empty t1).
  { subst t1. destruct (llm E TemplatePrompt query); repeat constructor. }
  destruct (retrieval_chain_trace E self
              (classified (llm E TemplatePrompt query)) query t1)
    as (rest & Hsnd & Hrest).
  assert (Hall : Forall filter_not_empty
                   (t1 ++ Retrieve query 5
                             (classified (llm E TemplatePrompt query)) :: rest)).
  { apply Forall_app. split; [exact Ht1|].
    constructor; [apply classified_not_nil | exact Hrest]. }
  destruct (retrieval_chain E self _ query t1) as [[resp|e] t2];
    simpl in Hsnd; subst t2.
  - destruct (resp !! "answer"); cbn [snd]; exact Hall.
  - destruct (exn_cls e); unfold emit, raise, bind; cbn [snd];
      try exact Hall;
      (apply Forall_app; split; [exact Hall | repeat constructor]).
Qed.

(** C10: whatever the classifier's model replies, and when its call fails,
    [_get_relevant_templates] returns a list with at least one element, and
    every label filter [generate_terraform] hands to the retriever is
    non-empty. *)
Theorem retrieval_filter_never_empty (E : env) (self : TerraformRAGEngine.t)
    (query : string) (t : list event) :
  (exists labels t',
      _get_relevant_templates E query t = (Returned labels, t') /\
      labels <> []) /\
  Forall filter_not_empty (trace (generate_terraform E self query)).
Proof.
  split; [|apply generate_terraform_trace].
  rewrite get_relevant_templates_run.
  eexists _, _. split; [reflexivity | apply classified_not_nil].
Qed.

(** An accepted query whose response has no [answer] key ends in a
    [ValueError], whatever the world is otherwise. *)
Lemma generate_terraform_no_answer (E : env) (self : TerraformRAGEngine.t)
    (query content : string) (context : list document)
    (response : gmap string string) (t : list event) :
  llm E ValidationPrompt query = Returned content ->
  fst (scan_lines (response_lines content)) = true ->
  retrieve E (vector_store self) query 5
    (classified (llm E TemplatePrompt query)) = Returned context ->
  synthesize E query context = Returned response ->
  response !! "answer" = None ->
  fst (generate_terraform E self query t) =
  Raised (Exn ValueError "No response generated from the model").
Proof.
  intros Hllm Hvalid Hretrieve Hsynth Hanswer.
  unfold generate_terraform, try_except, bind.
  rewrite validate_query_run, Hllm.
  destruct (scan_lines (response_lines content)) as [is_valid reason].
  cbn [fst] in Hvalid. subst is_valid. cbn [negb].
  rewrite get_relevant_templates_run.
  unfold retrieval_chain, bind, emit, answer.
  now rewrite Hretrieve, Hsynth, Hanswer.
Qed.

(** A [ValueError] raised by the document chain of an accepted query
    leaves [generate_terraform] as it is, whatever the world is otherwise:
    the handler for [ValueError] re-raises it. *)
Lemma generate_terraform_chain_value_error (E : env)
    (self : TerraformRAGEngine.t) (query content : string)
    (context : list document) (e : exn) (t : list event) :
  llm E ValidationPrompt query = Returned content ->
  fst (scan_lines (response_lines content)) = true ->
  retrieve E (vector_store self) query 5
    (classified (llm E TemplatePrompt query)) = Returned context ->
  synthesize E query context = Raised e ->
  exn_cls e = ValueError ->
  fst (generate_terraform E self query t) = Raised e.
Proof.
  intros Hllm Hvalid Hretrieve Hsynth Hcls.
  unfold generate_terraform, try_except, bind.
  rewrite validate_query_run, Hllm.
  destruct (scan_lines (response_lines content)) as [is_valid reason].
  cbn [fst] in Hvalid. subst is_valid. cbn [negb].
  rewrite get_relevant_templates_run.
  unfold retrieval_chain, bind, emit, answer.
  now rewrite Hretrieve, Hsynth, Hcls.
Qed.

(** C5, at the failing input: the validator accepts and the call of the
    document chain fails with an exception of a subclass of [ValueError].
    [generate_terraform] raises that exception as it is: a [ValueError], the
    class of the out-of-scope rejection, not the generic failure; and the
    chat front end answers it with the warning and the scope guidance, as it
    answers a rejected query. *)
Theorem chain_value_error_is_scope_rejection :
  let q := "create a storage account" in
  result (generate_terraform chain_value_error_env sample_engine q) =
  Raised (Exn ValueError "Expecting value: line 1 column 1 (char 0)") /\
  result (generate_terraform
            (validator_says ("valid: false" +:+ nl +:+ "reason: off topic"))
            sample_engine q) =
  Raised (Exn ValueError "Query is out of scope: off topic") /\
  result (generate_terraform retrieve_fails_env sample_engine q) =
  Raised (Exn OtherException
            "Failed to generate Terraform configuration: Connection error.") /\
  trace (azure_terraform_chat chain_value_error_env sample_agent q) =
  [AppendMessage User q; St StMarkdown q;
   LlmInvoke ValidationPrompt q; LlmInvoke TemplatePrompt q;
   Retrieve q 5 ["storage"; "vnet"]; Synthesize q [];
   St StWarning "Expecting value: line 1 column 1 (char 0)";
   St StMarkdown scope_guidance;
   AppendMessage Assistant
     (warning_sign +:+ " Expecting value: line 1 column 1 (char 0)")].
Proof. repeat split; vm_compute; reflexivity. Qed.

(** ** The template store *)

(** C7, at the failing input: the directory holds [a.tfvars.tf].  The file
    is loaded, and its label is [avars]: [replace] removed both occurrences
    of [.tf], where the name without its extension is [a.tfvars]. *)
Theorem inner_tf_removed_from_label :
  result (_load_templates tfvars_env "/srv/templates") =
  Returned
    [Document "resource storage_account"
       (<["source" := "storage.tf"]> (<["type" := "storage"]> ∅));
     Document "x = 1"
       (<["source" := "a.tfvars.tf"]> (<["type" := "avars"]> ∅))] /\
  "a.tfvars" +:+ ".tf" = "a.tfvars.tf" /\
  Py.replace ".tf" EmptyString "a.tfvars.tf" <> "a.tfvars".
Proof.
  split; [vm_compute; reflexivity|].
  split; [reflexivity|]. vm_compute. intros H. discriminate H.
Qed.

Lemma startswith_tf_app (s : string) :
  s <> EmptyString ->
  Py.startswith ".tf" s = false ->
  Py.startswith ".tf" (s +:+ ".tf") = false.
Proof.
  intros Hne H.
  destruct s as [|a [|b [|c r]]]; [congruence| | |exact H].
  - change (String a EmptyString +:+ ".tf") with (String a ".tf").
    cbn [Py.startswith]. destruct (Ascii.eqb "." a); reflexivity.
  - change (String a (String b EmptyString) +:+ ".tf")
      with (String a (String b ".tf")).
    cbn [Py.startswith]. destruct (Ascii.eqb "." a); [|reflexivity].
    destruct (Ascii.eqb "t" b); reflexivity.
Qed.

(** X15: Where the name before the extension has no [.tf] in it, the label is
    that name, verbatim. *)
Lemma label_of_plain_stem (stem : string) :
  Py.contains ".tf" stem = false ->
  Py.replace ".tf" EmptyString (stem +:+ ".tf") = stem.
Proof.
  unfold Py.replace. induction stem as [|c r IH]; intros H; [reflexivity|].
  cbn [Py.contains] in H. apply orb_false_iff in H as [Hs Hc].
  change (String c r +:+ ".tf") with (String c (r +:+ ".tf")).
  cbn [Py.replace_from].
  change (String c (r +:+ ".tf")) with (String c r +:+ ".tf").
  rewrite startswith_tf_app by (assumption || discriminate).
  now rewrite IH.
Qed.

Lemma load_files_labelled (E : env) (dir : string) (names : list string) :
  forall documents documents' t t',
    load_files E dir names documents t = (Returned documents', t') ->
    Forall labelled_by_file documents ->
    Forall labelled_by_file documents'.
Proof.
  induction names as [|filename rest IH]; intros docs docs' t t' Hrun Hdocs.
  - injection Hrun as <- _. exact Hdocs.
  - cbn [load_files] in Hrun.
    destruct (Py.endswith ".tf" filename) eqn:Hext;
      [|exact (IH _ _ _ _ Hrun Hdocs)].
    unfold bind in Hrun.
    destruct (read_file E (path_join dir filename) t) as [[content|e] t1];
      [|discriminate Hrun].
    eapply IH; [exact Hrun|].
    apply Forall_app. split; [exact Hdocs|].
    constructor; [|constructor].
    exists filename. cbn [metadata]. split; [exact Hext|].
    split; [apply lookup_insert_eq|].
    rewrite lookup_insert_ne by discriminate. apply lookup_insert_eq.
Qed.

(** A file is loaded exactly when its name ends with [.tf]: the sources of
    the documents are the listing filtered by the extension. *)
Lemma load_files_sources (E : env) (dir : string) (names : list string) :
  forall documents documents' t t',
    load_files E dir names documents t = (Returned documents', t') ->
    map (fun d => metadata d !! "source") documents' =
    map (fun d => metadata d !! "source") documents
    ++ map Some (List.filter (Py.endswith ".tf") names).
Proof.
  induction names as [|filename rest IH]; intros docs docs' t t' Hrun.
  - injection Hrun as <- _. now rewrite app_nil_r.
  - cbn [load_files List.filter] in *.
    destruct (Py.endswith ".tf" filename) eqn:Hext;
      [|exact (IH _ _ _ _ Hrun)].
    unfold bind in Hrun.
    destruct (read_file E (path_join dir filename) t) as [[content|e] t1];
      [|discriminate Hrun].
    rewrite (IH _ _ _ _ Hrun), map_app, <- app_assoc. cbn [map metadata app].
    now rewrite lookup_insert_eq.
Qed.

(** C9: every chunk produced by splitting comes from one of the documents,
    is one of the text spans of that document, and carries the type label
    of that document. *)
Theorem chunk_label_preserved (E : env) (documents : list document) :
  Forall
    (fun chunk =>
       exists d,
         In d documents /\
         In (page_content chunk) (split_text E (page_content d)) /\
         metadata chunk !! "type" = metadata d !! "type")
    (split_documents E documents).
Proof.
  apply List.Forall_forall. intros chunk Hchunk.
  unfold split_documents in Hchunk.
  apply in_flat_map in Hchunk as (d & Hd & Hchunk).
  unfold chunks_of in Hchunk.
  apply in_map_iff in Hchunk as (text & <- & Htext).
  exists d. repeat split; assumption.
Qed.

(** The chunks the engine hands to the index are labelled by the name of
    the file they come from. *)
Lemma vector_store_labelled (E : env) (dir : string) (t t' : list event)
    (store : list document) :
  _initialize_vector_store E dir t = (Returned store, t') ->
  Forall labelled_by_file store.
Proof.
  unfold _initialize_vector_store, _load_templates, bind, emit, answer, ret.
  intros Hrun.
  destruct (listdir E dir t) as [[names|e] t0]; [|discriminate Hrun].
  destruct (load_files E dir names [] t0) as [[docs|e] t1] eqn:Hload;
    [|discriminate Hrun].
  destruct (from_documents E (split_documents E docs)); [|discriminate Hrun].
  injection Hrun as <- _.
  pose proof (load_files_labelled E dir names [] docs t0 t1 Hload
                (List.Forall_nil _)) as Hdocs.
  apply List.Forall_forall. intros chunk Hchunk.
  unfold split_documents in Hchunk.
  apply in_flat_map in Hchunk as (d & Hd & Hchunk).
  unfold chunks_of in Hchunk.
  apply in_map_iff in Hchunk as (text & <- & _).
  rewrite List.Forall_forall in Hdocs. exact (Hdocs d Hd).
Qed.

(** ** Construction *)

Example engine_init_sample :
  result (TerraformRAGEngine.__init__ sample_env "/srv/templates") =
  Returned
    (Engine "/srv/templates"
       [Document "resource storage_account"
          (<["source" := "storage.tf"]> (<["type" := "storage"]> ∅))]) /\
  calls is_network
    (trace (TerraformRAGEngine.__init__ sample_env "/srv/templates")) = 2.
Proof. split; vm_compute; reflexivity. Qed.

(** C8, as stated, fails: the engine constructed on a path that does not
    exist has already made the embedding smoke-test call when the error for
    the directory is raised. *)
Lemma engine_missing_dir_after_smoke_test :
  path_exists sample_env "/missing" = false /\
  TerraformRAGEngine.__init__ sample_env "/missing" [] =
  (Raised (Exn FileNotFoundError
             "[Errno 2] No such file or directory: '/missing'"),
   [EmbedQuery "test"]) /\
  ~ (exists e,
        result (TerraformRAGEngine.__init__ sample_env "/missing") = Raised e /\
        calls is_network
          (trace (TerraformRAGEngine.__init__ sample_env "/missing")) = 0).
Proof.
  split; [reflexivity|]. split; [vm_compute; reflexivity|].
  intros (e & _ & H). vm_compute in H. discriminate H.
Qed.

(** C8, amended: the agent, with the API key set, checks its template
    directory first and raises [FileNotFoundError] without having called
    anything; the engine constructed directly on a path that does not exist
    always fails, and when it fails with the error for the directory
    ([FileNotFoundError], from [os.listdir]) the embedding smoke test is the
    one call it has made. *)
Theorem missing_template_dir (E : env) (dir : string) (t : list event) :
  (truthy (getenv E "OPENAI_API_KEY") = true ->
   path_exists E (path_join (app_parent E) "templates") = false ->
   AzureTerraformAgent.__init__ E t =
   (Raised (Exn FileNotFoundError
              ("Template directory not found: "
               +:+ path_join (app_parent E) "templates")),
    t)) /\
  (path_exists E dir = false ->
   exists e new,
     TerraformRAGEngine.__init__ E dir t = (Raised e, t ++ new) /\
     (exn_cls e = FileNotFoundError -> new = [EmbedQuery "test"])).
Proof.
  split.
  - intros Hkey Hdir.
    unfold AzureTerraformAgent.__init__, bind, ret, raise.
    now rewrite Hkey, Hdir.
  - intros Hdir. unfold path_exists in Hdir.
    unfold TerraformRAGEngine.__init__, _initialize_vector_store,
      _load_templates, listdir, try_except, bind, ret, raise, answer, emit.
    destruct (fs E !! dir); [discriminate Hdir|].
    destruct (truthy (getenv E "OPENAI_API_KEY"));
      [|exists (Exn ValueError
                  "OpenAI API key not found in environment variables"), [];
        rewrite app_nil_r; split; [reflexivity | intros H; discriminate H]].
    destruct (new_embeddings E) as [[]|e0];
      [|eexists _, []; rewrite app_nil_r;
        split; [reflexivity | intros H; discriminate H]].
    destruct (embed_query E "test") as [[|n]|e1];
      try (eexists _, [EmbedQuery "test"];
           split; [reflexivity | intros H; discriminate H]).
    destruct (new_chat E) as [[]|e2];
      eexists _, [EmbedQuery "test"]; split; reflexivity || (intros _; reflexivity).
Qed.

Lemma missing_template_dir_witness :
  AzureTerraformAgent.__init__ empty_fs_env [] =
  (Raised (Exn FileNotFoundError
             "Template directory not found: /srv/templates"), []) /\
  exists e new,
    TerraformRAGEngine.__init__ empty_fs_env "/missing" [] = (Raised e, new) /\
    (exn_cls e = FileNotFoundError -> new = [EmbedQuery "test"]).
Proof.
  destruct (missing_template_dir empty_fs_env "/missing" []) as [Hagent Hengine].
  split.
  - apply Hagent; reflexivity.
  - apply Hengine. reflexivity.
Defined.

(** * Further properties *)

(** ** Splitting and joining *)

Lemma split_length (sep : ascii) (s : string) :
  length (Py.split sep s) = S (count_char sep s).
Proof.
  induction s as [|c r IH]; [reflexivity|].
  cbn [Py.split count_char]. destruct (Ascii.eqb c sep).
  - cbn [length]. now rewrite IH.
  - destruct (Py.split sep r) as [|h t]; [discriminate IH|].
    cbn [length] in *. now rewrite IH.
Qed.

Lemma split_pieces (sep : ascii) (s : string) :
  Forall (fun piece => has_char sep piece = false) (Py.split sep s).
Proof.
  induction s as [|c r IH]; [repeat constructor|].
  cbn [Py.split]. destruct (Ascii.eqb c sep) eqn:Hc.
  - constructor; [reflexivity | exact IH].
  - destruct (Py.split sep r) as [|h t]; [repeat constructor; cbn; now rewrite Hc|].
    inversion_clear IH as [|? ? Hh Ht].
    constructor; [|exact Ht]. cbn [has_char]. now rewrite Hc, Hh.
Qed.

Lemma join_split (sep : ascii) (s : string) :
  join_with sep (Py.split sep s) = s.
Proof.
  induction s as [|c r IH]; [reflexivity|].
  cbn [Py.split]. destruct (Ascii.eqb_spec c sep) as [->|Hne].
  - pose proof (split_not_nil sep r) as Hnil.
    destruct (Py.split sep r) as [|h t]; [congruence|].
    change (join_with sep (EmptyString :: h :: t))
      with (String sep (join_with sep (h :: t))).
    now rewrite IH.
  - pose proof (split_not_nil sep r) as Hnil.
    destruct (Py.split sep r) as [|h [|h' t]]; [congruence| |].
    + cbn [join_with] in *. now rewrite IH.
    + change (join_with sep (String c h :: h' :: t))
        with (String c (join_with sep (h :: h' :: t))).
      now rewrite IH.
Qed.

Lemma split_plain (sep : ascii) (p : string) :
  has_char sep p = false -> Py.split sep p = [p].
Proof.
  induction p as [|a p' IH]; [reflexivity|].
  cbn [has_char Py.split]. intros H.
  apply orb_false_iff in H as [Ha Hp]. now rewrite Ha, IH.
Qed.

Lemma split_app_sep (sep : ascii) (p r : string) :
  has_char sep p = false ->
  Py.split sep (p +:+ String sep r) = p :: Py.split sep r.
Proof.
  induction p as [|a p' IH]; intros H.
  - change (EmptyString +:+ String sep r) with (String sep r).
    cbn [Py.split]. now rewrite Ascii.eqb_refl.
  - cbn [has_char] in H. apply orb_false_iff in H as [Ha Hp].
    change (String a p' +:+ String sep r)
      with (String a (p' +:+ String sep r)).
    cbn [Py.split]. now rewrite Ha, IH.
Qed.

Lemma split_join (sep : ascii) (parts : list string) :
  parts <> [] ->
  Forall (fun p => has_char sep p = false) parts ->
  Py.split sep (join_with sep parts) = parts.
Proof.
  induction parts as [|p [|q rest] IH]; intros Hne Hall; [congruence| |].
  - inversion_clear Hall as [|? ? Hp _]. now apply split_plain.
  - inversion_clear Hall as [|? ? Hp Hrest].
    change (join_with sep (p :: q :: rest))
      with (p +:+ String sep (join_with sep (q :: rest))).
    rewrite split_app_sep by assumption.
    now rewrite IH.
Qed.

(** ** Trimming *)

Lemma rstrip_idem (s : string) : Py.rstrip (Py.rstrip s) = Py.rstrip s.
Proof.
  induction s as [|c r IH]; [reflexivity|].
  cbn [Py.rstrip]. destruct (Py.rstrip r) as [|a b] eqn:Hr.
  - destruct (Py.is_space c) eqn:Hc; [reflexivity|].
    cbn [Py.rstrip]. now rewrite Hc.
  - cbn [Py.rstrip]. cbn [Py.rstrip] in IH. now rewrite IH.
Qed.

Lemma lstrip_head (s : string) :
  Py.lstrip s = EmptyString \/
  exists c r, Py.lstrip s = String c r /\ Py.is_space c = false.
Proof.
  induction s as [|c r IH]; [now left|].
  cbn [Py.lstrip]. destruct (Py.is_space c) eqn:Hc; [exact IH|].
  right. now exists c, r.
Qed.

Lemma rstrip_head (c : ascii) (r : string) :
  Py.is_space c = false ->
  exists r', Py.rstrip (String c r) = String c r'.
Proof.
  intros Hc. cbn [Py.rstrip]. destruct (Py.rstrip r) as [|a b].
  - rewrite Hc. now exists EmptyString.
  - now exists (String a b).
Qed.

Lemma strip_idem (s : string) : Py.strip (Py.strip s) = Py.strip s.
Proof.
  unfold Py.strip. destruct (lstrip_head s) as [H | (c & r & H & Hc)].
  - now rewrite H.
  - rewrite H. destruct (rstrip_head c r Hc) as [r' Hr'].
    rewrite Hr' at 1. cbn [Py.lstrip]. rewrite Hc, <- Hr'.
    apply rstrip_idem.
Qed.

Lemma has_char_lstrip (c : ascii) (s : string) :
  has_char c s = false -> has_char c (Py.lstrip s) = false.
Proof.
  induction s as [|a r IH]; [reflexivity|].
  intros H. cbn [Py.lstrip]. destruct (Py.is_space a); [|exact H].
  cbn [has_char] in H. apply orb_false_iff in H as [_ H]. now apply IH.
Qed.

Lemma has_char_rstrip (c : ascii) (s : string) :
  has_char c s = false -> has_char c (Py.rstrip s) = false.
Proof.
  induction s as [|a r IH]; [reflexivity|].
  intros H. cbn [has_char] in H. apply orb_false_iff in H as [Ha Hr].
  specialize (IH Hr). cbn [Py.rstrip].
  destruct (Py.rstrip r) as [|x y].
  - destruct (Py.is_space a); [reflexivity|]. cbn [has_char]. now rewrite Ha.
  - cbn [has_char] in *. now rewrite Ha, IH.
Qed.

Lemma has_char_strip (c : ascii) (s : string) :
  has_char c s = false -> has_char c (Py.strip s) = false.
Proof.
  intros H. unfold Py.strip. now apply has_char_rstrip, has_char_lstrip.
Qed.

Lemma has_char_slice (c : ascii) (n : nat) :
  forall s, has_char c s = false -> has_char c (Py.slice_from n s) = false.
Proof.
  induction n as [|n IH]; intros [|a r] H; try exact H.
  cbn [Py.slice_from]. cbn [has_char] in H.
  apply orb_false_iff in H as [_ H]. now apply IH.
Qed.

Lemma slice_lower (n : nat) :
  forall s, Py.slice_from n (Py.lower s) = Py.lower (Py.slice_from n s).
Proof.
  induction n as [|n IH]; intros [|a r]; try reflexivity.
  cbn [Py.lower Py.slice_from]. apply IH.
Qed.

(** ** The validator, further *)

Lemma scan_accepts_inv (lines : list string) :
  forall st,
    fst (fold_left scan_line lines st) = true ->
    fst st = true \/
    exists line,
      In line lines /\ Py.startswith "valid:" line = true /\
      Py.contains "true" (Py.lower line) = true.
Proof.
  induction lines as [|l ls IH]; intros [b r] H; [now left|].
  cbn [fold_left] in H. apply IH in H as [H | (line & Hin & Hv & Ht)].
  - rewrite scan_line_eq in H.
    destruct (Py.startswith "valid:" l) eqn:Hv.
    + right. exists l. cbn [fst] in H. split; [now left | now split].
    + left. now destruct (Py.startswith "reason:" l).
  - right. exists line. split; [now right | now split].
Qed.

(** X1: [_validate_query] accepts a query only when the model's reply has a
    line that begins with [valid:] and contains [true]; nothing else, and no
    failure, makes a query in scope. *)
Theorem validate_accepts_only_on_verdict (E : env) (query reason : string)
    (t : list event) :
  fst (_validate_query E query t) = Returned (true, reason) ->
  exists content line,
    llm E ValidationPrompt query = Returned content /\
    In line (response_lines content) /\
    Py.startswith "valid:" line = true /\
    Py.contains "true" line = true.
Proof.
  rewrite validate_query_run. cbn [fst].
  destruct (llm E ValidationPrompt query) as [content|e];
    [|intros H; discriminate H].
  intros H. injection H as H.
  assert (Hfst : fst (scan_lines (response_lines content)) = true)
    by now rewrite H.
  apply scan_accepts_inv in Hfst as [Hfst | (line & Hin & Hv & Ht)];
    [discriminate Hfst|].
  exists content, line. repeat split; try assumption.
  pose proof (response_lines_lower content) as Hlow.
  rewrite List.Forall_forall in Hlow. now rewrite <- (Hlow line Hin).
Qed.

Lemma validate_accepts_only_on_verdict_witness :
  exists content line,
    llm sample_env ValidationPrompt "create a vm" = Returned content /\
    In line (response_lines content) /\
    Py.startswith "valid:" line = true /\
    Py.contains "true" line = true.
Proof.
  apply (validate_accepts_only_on_verdict sample_env "create a vm"
           "storage request" []).
  reflexivity.
Defined.

(** X2: Whatever the chat model does, [_validate_query] returns: it never
    raises, and it calls the model exactly once. *)
Theorem validate_query_never_raises (E : env) (query : string)
    (t : list event) :
  exists is_valid reason,
    _validate_query E query t =
    (Returned (is_valid, reason), t ++ [LlmInvoke ValidationPrompt query]).
Proof.
  rewrite validate_query_run.
  destruct (match llm E ValidationPrompt query with
            | Returned content => scan_lines (response_lines content)
            | Raised e => (false, "Error validating query: " +:+ exn_msg e)
            end) as [b r].
  now exists b, r.
Qed.

Lemma reason_of_line_shape (line : string) :
  Py.lower line = line ->
  has_char LF line = false ->
  let reason := Py.strip (Py.slice_from 7 line) in
  Py.lower reason = reason /\ trimmed reason /\ has_char LF reason = false.
Proof.
  intros Hlow Hlf reason. subst reason. repeat split.
  - now rewrite <- strip_lower, <- slice_lower, Hlow.
  - apply strip_idem.
  - now apply has_char_strip, has_char_slice.
Qed.

(** X3: The reason [_validate_query] takes from a reply is either the default
    ["Invalid query format"] or a single line in lower case with no white
    space at either end: the model's wording is not passed on verbatim. *)
Theorem validate_reason_shape (E : env) (query content : string)
    (t : list event) :
  llm E ValidationPrompt query = Returned content ->
  exists is_valid reason,
    fst (_validate_query E query t) = Returned (is_valid, reason) /\
    (reason = "Invalid query format" \/
     (Py.lower reason = reason /\ trimmed reason /\
      has_char LF reason = false)).
Proof.
  intros Hllm. rewrite validate_query_run, Hllm. cbn [fst].
  rewrite scan_lines_last_wins by apply response_lines_lower.
  unfold parse_last_wins. eexists _, _. split; [reflexivity|].
  destruct (last (lines_with "reason:" (response_lines content)))
    as [line|] eqn:Hlast; [right | now left].
  assert (Hin : In line (response_lines content)).
  { apply last_Some in Hlast as [l' Hl'].
    assert (In line (lines_with "reason:" (response_lines content)))
      by (rewrite Hl'; apply in_or_app; right; now left).
    unfold lines_with in *. now apply List.filter_In in H as [H _]. }
  pose proof (response_lines_lower content) as Hlow.
  pose proof (split_pieces LF (Py.lower (Py.strip content))) as Hlf.
  fold (response_lines content) in Hlf.
  rewrite List.Forall_forall in Hlow, Hlf.
  exact (reason_of_line_shape line (Hlow line Hin) (Hlf line Hin)).
Qed.

Lemma validate_reason_shape_witness :
  exists is_valid reason,
    fst (_validate_query
           (validator_says ("valid: false" +:+ nl +:+ "Reason:  Not Azure. "))
           "hello" []) = Returned (is_valid, reason) /\
    (reason = "Invalid query format" \/
     (Py.lower reason = reason /\ trimmed reason /\
      has_char LF reason = false)).
Proof.
  apply (validate_reason_shape
           (validator_says ("valid: false" +:+ nl +:+ "Reason:  Not Azure. "))
           "hello" ("valid: false" +:+ nl +:+ "Reason:  Not Azure. ") []).
  reflexivity.
Defined.

(** ** The classifier, further *)

Lemma has_comma_strip_split (content : string) :
  Forall (fun token => trimmed token /\ has_char "," token = false)
    (map Py.strip (Py.split "," content)).
Proof.
  apply List.Forall_forall. intros token Hin.
  apply in_map_iff in Hin as (piece & <- & Hin).
  pose proof (split_pieces "," content) as Hpieces.
  rewrite List.Forall_forall in Hpieces.
  split; [apply strip_idem | now apply has_char_strip, Hpieces].
Qed.

(** X4: On a non-empty reply, [_get_relevant_templates] returns one token per
    comma-separated field of the reply (commas plus one), each trimmed and
    free of commas; the tokens are not checked against the five known
    resource types, nor deduplicated. *)
Theorem classifier_tokens_shape (E : env) (query content : string)
    (t : list event) :
  llm E TemplatePrompt query = Returned content ->
  content <> EmptyString ->
  exists labels,
    fst (_get_relevant_templates E query t) = Returned labels /\
    length labels = S (count_char "," content) /\
    Forall (fun token => trimmed token /\ has_char "," token = false) labels.
Proof.
  intros Hllm Hne. rewrite get_relevant_templates_run, Hllm. cbn [fst].
  destruct content as [|c r]; [congruence|].
  exists (map Py.strip (Py.split "," (String c r))).
  split; [reflexivity|]. split.
  - now rewrite length_map, split_length.
  - apply has_comma_strip_split.
Qed.

Lemma classifier_tokens_shape_witness :
  exists labels,
    fst (_get_relevant_templates sample_env "create a vm" []) =
    Returned labels /\
    length labels = 2 /\
    Forall (fun token => trimmed token /\ has_char "," token = false) labels.
Proof.
  apply (classifier_tokens_shape sample_env "create a vm" "storage, vnet" []).
  - reflexivity.
  - discriminate.
Defined.

(** X5: A reply that is a comma-joined list of comma-free fields is read back
    as those fields, each trimmed: parsing undoes the joining. *)
Theorem classifier_reads_joined_fields (E : env) (query : string)
    (fields : list string) (t : list event) :
  fields <> [] ->
  Forall (fun f => has_char "," f = false) fields ->
  join_with "," fields <> EmptyString ->
  llm E TemplatePrompt query = Returned (join_with "," fields) ->
  fst (_get_relevant_templates E query t) = Returned (map Py.strip fields).
Proof.
  intros Hne Hall Hjoin Hllm.
  rewrite get_relevant_templates_run, Hllm. cbn [fst].
  destruct (join_with "," fields) as [|c r] eqn:Hj; [congruence|].
  unfold classified. now rewrite <- Hj, split_join.
Qed.

Lemma classifier_reads_joined_fields_witness :
  fst (_get_relevant_templates sample_env "create a vm" []) =
  Returned ["storage"; "vnet"].
Proof.
  apply (classifier_reads_joined_fields sample_env "create a vm"
           ["storage"; " vnet"] []).
  - discriminate.
  - repeat constructor.
  - discriminate.
  - reflexivity.
Defined.

(** X6: Whatever the chat model does, [_get_relevant_templates] returns a
    list: it never raises, calls the model once, and reports a failure of
    the call with one [st.error]. *)
Theorem classifier_never_raises (E : env) (query : string) (t : list event) :
  exists labels new,
    _get_relevant_templates E query t =
    (Returned labels, t ++ LlmInvoke TemplatePrompt query :: new) /\
    calls is_network new = 0 /\
    (calls is_st_error new = 0 <->
     exists content, llm E TemplatePrompt query = Returned content).
Proof.
  rewrite get_relevant_templates_run. eexists _, _. split; [reflexivity|].
  destruct (llm E TemplatePrompt query) as [content|e]; cbn.
  - repeat split; eauto.
  - repeat split; [intros H; discriminate H|].
    intros [content H]. discriminate H.
Qed.

(** ** The orchestrator, further *)

Ltac run_pipeline :=
  unfold trace, result, generate_terraform, try_except, bind;
  rewrite validate_query_run;
  cbn [fst snd];
  rewrite ?get_relevant_templates_run;
  unfold retrieval_chain, bind, emit, answer, raise, ret.

(** X7: [generate_terraform] returns a text exactly when the validator's reply
    is accepted, the retriever and the document chain both answer, and the
    response has the key [answer]; the text is the value under that key,
    unchanged. *)
Theorem generate_terraform_returns_answer (E : env)
    (self : TerraformRAGEngine.t) (query text : string) (t : list event) :
  fst (generate_terraform E self query t) = Returned text <->
  exists content context response,
    llm E ValidationPrompt query = Returned content /\
    fst (scan_lines (response_lines content)) = true /\
    retrieve E (vector_store self) query 5
      (classified (llm E TemplatePrompt query)) = Returned context /\
    synthesize E query context = Returned response /\
    response !! "answer" = Some text.
Proof.
  split.
  - run_pipeline.
    destruct (llm E ValidationPrompt query) as [content|e0] eqn:Hllm;
      [|intros H; discriminate H].
    destruct (scan_lines (response_lines content)) as [[|] reason] eqn:Hscan;
      [|intros H; discriminate H].
    cbn [negb]. rewrite get_relevant_templates_run.
    unfold retrieval_chain, bind, emit, answer, raise, ret.
    destruct (retrieve E (vector_store self) query 5
                (classified (llm E TemplatePrompt query)))
      as [context|e1] eqn:Hretrieve;
      [|destruct (exn_cls e1); intros H; discriminate H].
    destruct (synthesize E query context) as [response|e2] eqn:Hsynth;
      [|destruct (exn_cls e2); intros H; discriminate H].
    destruct (response !! "answer") as [answer|] eqn:Hanswer;
      [|intros H; discriminate H].
    intros H. injection H as <-.
    exists content, context, response. rewrite Hscan.
    repeat split; assumption || reflexivity.
  - intros (content & context & response & Hllm & Hvalid & Hretrieve
            & Hsynth & Hanswer).
    run_pipeline. rewrite Hllm.
    destruct (scan_lines (response_lines content)) as [is_valid reason].
    cbn [fst] in Hvalid. subst is_valid. cbn [negb].
    rewrite get_relevant_templates_run.
    unfold retrieval_chain, bind, emit, answer, raise, ret.
    now rewrite Hretrieve, Hsynth, Hanswer.
Qed.

Lemma generate_terraform_returns_answer_witness :
  fst (generate_terraform sample_env sample_engine "create storage" []) =
  Returned "resource {}".
Proof.
  apply (generate_terraform_returns_answer sample_env sample_engine
           "create storage" "resource {}" []).
  exists ("valid: true" +:+ nl +:+ "reason: storage request"), [],
    (<["answer" := "resource {}"]> ∅).
  repeat split; reflexivity.
Defined.

Ltac pipeline_split E query :=
  run_pipeline;
  destruct (llm E ValidationPrompt query) as [?content|?e] eqn:?Hllm;
  [destruct (scan_lines (response_lines _)) as [[|] ?reason] eqn:?Hscan|];
  cbn [negb fst snd];
  rewrite ?get_relevant_templates_run;
  unfold retrieval_chain, bind, emit, answer, raise, ret;
  repeat case_match; simplify_eq.

(** X8: An exception that leaves [generate_terraform] is either a
    [ValueError] passed on unchanged (the rejection with the validator's
    reason, the complaint about a response without [answer], or the very
    exception the retriever or the document chain raised), or a plain
    [Exception] whose message is that of the exception a service raised,
    itself not a [ValueError], behind
    ["Failed to generate Terraform configuration: "]; in the second case the
    last thing it did was to show the original message with [st.error].  No
    other class of exception leaves it. *)
Theorem generate_terraform_error_classes (E : env)
    (self : TerraformRAGEngine.t) (query : string) (e : exn) :
  result (generate_terraform E self query) = Raised e ->
  (exn_cls e = ValueError /\ value_error_origin E self query e) \/
  (exn_cls e = OtherException /\
   exists cause,
     exn_cls cause <> ValueError /\
     service_raised E self query cause /\
     exn_msg e =
     "Failed to generate Terraform configuration: " +:+ exn_msg cause /\
     last (trace (generate_terraform E self query)) =
     Some (St StError ("Error in generate_terraform: " +:+ exn_msg cause))).
Proof.
  unfold value_error_origin, service_raised.
  pipeline_split E query; cbn [fst snd]; intros Hres; simplify_eq;
    rewrite ?validate_query_run;
    repeat match goal with
           | H : llm _ _ _ = _ |- _ => rewrite H
           end;
    rewrite ?Hscan; cbn [fst].
  all: try (left; split; [reflexivity || assumption|]; solve [eauto 10]).
  all: right; (split; [reflexivity|]);
    match goal with
    | Hc : exn_cls ?c = _ |- _ =>
        exists c; split; [rewrite Hc; discriminate|]
    end;
    (split; [solve [eauto 10] | split; reflexivity]).
Qed.

Lemma generate_terraform_error_classes_witness :
  (exn_cls (Exn OtherException
              "Failed to generate Terraform configuration: Connection error.")
   = ValueError /\
   value_error_origin retrieve_fails_env sample_engine "create storage"
     (Exn OtherException
        "Failed to generate Terraform configuration: Connection error.")) \/
  (exn_cls (Exn OtherException
              "Failed to generate Terraform configuration: Connection error.")
   = OtherException /\
   exists cause,
     exn_cls cause <> ValueError /\
     service_raised retrieve_fails_env sample_engine "create storage" cause /\
     exn_msg (Exn OtherException
                "Failed to generate Terraform configuration: Connection error.")
     = "Failed to generate Terraform configuration: " +:+ exn_msg cause /\
     last (trace (generate_terraform retrieve_fails_env sample_engine
                    "create storage")) =
     Some (St StError ("Error in generate_terraform: " +:+ exn_msg cause))).
Proof.
  apply (generate_terraform_error_classes retrieve_fails_env sample_engine
           "create storage").
  reflexivity.
Defined.

(** X9: One run of [generate_terraform] asks the validator's model exactly
    once and every other service at most once (there is no retry); the
    retriever is called exactly when the classifier is, the document chain
    only after the retriever, and no embedding call is made directly. *)
Theorem generate_terraform_calls_once (E : env) (self : TerraformRAGEngine.t)
    (query : string) :
  let tr := trace (generate_terraform E self query) in
  calls is_validator_call tr = 1 /\
  calls is_classifier_call tr <= 1 /\
  calls is_retriever_call tr = calls is_classifier_call tr /\
  calls is_synthesis_call tr <= calls is_retriever_call tr /\
  calls is_embedding_call tr = 0.
Proof.
  pipeline_split E query; cbn; repeat split; lia.
Qed.

Lemma pipeline_events_hold (E : env) (self : TerraformRAGEngine.t)
    (query : string) :
  Forall (pipeline_event E self query) (trace (generate_terraform E self query)).
Proof.
  pipeline_split E query; cbn [app snd];
    repeat first [apply List.Forall_nil | apply List.Forall_cons];
    cbn [pipeline_event];
    repeat match goal with
           | H : llm _ TemplatePrompt _ = _ |- _ => rewrite H
           end;
    repeat split; auto.
Qed.

(** X10: Every event of a run of [generate_terraform] is about the query it was
    given: both prompts carry that query, the retriever is asked for the 5
    nearest chunks among the classified labels, the document chain receives
    exactly what the retriever returned, and the only widget is [st.error]. *)
Theorem generate_terraform_events (E : env) (self : TerraformRAGEngine.t)
    (query : string) :
  Forall (pipeline_event E self query) (trace (generate_terraform E self query)).
Proof.
  apply pipeline_events_hold.
Qed.

(** X11: A failure of the classifier's model does not stop an accepted query:
    the failure is shown with [st.error] and the retriever is called next,
    with the two default labels as its filter. *)
Theorem classifier_failure_proceeds (E : env) (self : TerraformRAGEngine.t)
    (query content : string) (e : exn) :
  llm E ValidationPrompt query = Returned content ->
  fst (scan_lines (response_lines content)) = true ->
  llm E TemplatePrompt query = Raised e ->
  exists rest,
    trace (generate_terraform E self query) =
    [LlmInvoke ValidationPrompt query; LlmInvoke TemplatePrompt query;
     St StError ("Error in template selection: " +:+ exn_msg e);
     Retrieve query 5 ["virtual_machine"; "storage"]] ++ rest.
Proof.
  intros Hllm Hvalid Hcls. run_pipeline. rewrite Hllm.
  destruct (scan_lines (response_lines content)) as [is_valid reason].
  cbn [fst] in Hvalid. subst is_valid. cbn [negb].
  rewrite get_relevant_templates_run, Hcls.
  unfold retrieval_chain, bind, emit, answer, raise, ret.
  repeat case_match; simplify_eq; cbn [app snd]; eexists; reflexivity.
Qed.

Lemma classifier_failure_proceeds_witness :
  exists rest,
    trace (generate_terraform (llm_fails_on TemplatePrompt connection_error)
             sample_engine "create a vm") =
    [LlmInvoke ValidationPrompt "create a vm";
     LlmInvoke TemplatePrompt "create a vm";
     St StError "Error in template selection: Connection error.";
     Retrieve "create a vm" 5 ["virtual_machine"; "storage"]] ++ rest.
Proof.
  apply (classifier_failure_proceeds
           (llm_fails_on TemplatePrompt connection_error) sample_engine
           "create a vm" ("valid: true" +:+ nl +:+ "reason: storage request")
           connection_error); reflexivity.
Defined.

(** X12: When the retriever fails, the document chain is not called and
    [generate_terraform] raises: it never answers from an empty context
    because retrieval broke. *)
Theorem retrieval_failure_skips_synthesis (E : env)
    (self : TerraformRAGEngine.t) (query : string) (e : exn) :
  retrieve E (vector_store self) query 5
    (classified (llm E TemplatePrompt query)) = Raised e ->
  calls is_synthesis_call (trace (generate_terraform E self query)) = 0 /\
  exists e', result (generate_terraform E self query) = Raised e'.
Proof.
  intros Hretrieve. run_pipeline.
  destruct (llm E ValidationPrompt query) as [content|e0];
    [destruct (scan_lines (response_lines content)) as [[|] reason]|];
    cbn [negb fst snd];
    rewrite ?get_relevant_templates_run;
    unfold retrieval_chain, bind, emit, answer, raise, ret;
    rewrite ?Hretrieve;
    try (split; [reflexivity | eexists; reflexivity]).
  destruct (llm E TemplatePrompt query), (exn_cls e);
    (split; [reflexivity | eexists; reflexivity]).
Qed.

Lemma retrieval_failure_skips_synthesis_witness :
  calls is_synthesis_call
    (trace (generate_terraform retrieve_fails_env sample_engine
              "create storage")) = 0 /\
  exists e',
    result (generate_terraform retrieve_fails_env sample_engine
              "create storage") = Raised e'.
Proof.
  apply (retrieval_failure_skips_synthesis retrieve_fails_env sample_engine
           "create storage" connection_error).
  reflexivity.
Defined.

(** ** The template store, further *)

Lemma read_file_run (E : env) (p : string) (t : list event) :
  read_file E p t =
  (match file_content E p with
   | Some content => Returned content
   | None => fst (read_file E p [])
   end, t).
Proof.
  unfold read_file, file_content.
  destruct (fs E !! p) as [[entries|content|detail]|]; reflexivity.
Qed.

Lemma read_file_error (E : env) (p : string) :
  file_content E p = None ->
  exists e, fst (read_file E p []) = Raised e.
Proof.
  unfold read_file, file_content.
  destruct (fs E !! p) as [[entries|content|detail]|]; intros H;
    try discriminate H; eexists; reflexivity.
Qed.

Lemma load_files_trace (E : env) (dir : string) (names : list string) :
  forall documents t, snd (load_files E dir names documents t) = t.
Proof.
  induction names as [|filename rest IH]; intros docs t; [reflexivity|].
  cbn [load_files]. destruct (Py.endswith ".tf" filename); [|apply IH].
  unfold bind. rewrite read_file_run.
  destruct (file_content E (path_join dir filename)); [apply IH|].
  destruct (fst (read_file E (path_join dir filename) [])); [apply IH|].
  reflexivity.
Qed.

Lemma load_files_run (E : env) (dir : string) (names : list string) :
  (forall filename,
      In filename names -> Py.endswith ".tf" filename = true ->
      exists content,
        file_content E (path_join dir filename) = Some content) ->
  forall documents t,
    load_files E dir names documents t =
    (Returned (documents
               ++ map (loaded_document E dir)
                    (List.filter (Py.endswith ".tf") names)), t).
Proof.
  induction names as [|filename rest IH]; intros Hfiles docs t.
  - cbn. now rewrite app_nil_r.
  - cbn [load_files List.filter].
    destruct (Py.endswith ".tf" filename) eqn:Hext.
    + destruct (Hfiles filename (or_introl eq_refl) Hext) as [content Hc].
      unfold bind. rewrite read_file_run, Hc.
      rewrite IH by (intros f Hin; apply Hfiles; now right).
      cbn [map]. unfold loaded_document at 2. rewrite Hc.
      now rewrite <- app_assoc.
    + apply IH. intros f Hin. apply Hfiles. now right.
Qed.

(** X13: When every listed name ending in [.tf] is a readable file,
    [_load_templates] returns one document per such name, in the order of
    the listing, with the file's content, its name as [source] and the name
    without [.tf] as [type]; names with another ending are never opened, and
    nothing reaches the network. *)
Theorem load_templates_reads_listing (E : env) (dir : string)
    (names : list string) (t : list event) :
  fs E !! dir = Some (Dir names) ->
  (forall filename,
      In filename names -> Py.endswith ".tf" filename = true ->
      exists content,
        file_content E (path_join dir filename) = Some content) ->
  _load_templates E dir t =
  (Returned (map (loaded_document E dir)
               (List.filter (Py.endswith ".tf") names)), t).
Proof.
  intros Hdir Hfiles. unfold _load_templates, listdir, bind.
  rewrite Hdir. cbn [ret]. now rewrite load_files_run.
Qed.

Lemma load_templates_reads_listing_witness :
  _load_templates sample_env "/srv/templates" [] =
  (Returned [template_document "storage.tf" "resource storage_account"], []).
Proof.
  apply (load_templates_reads_listing sample_env "/srv/templates"
           sample_listing []).
  - reflexivity.
  - intros filename [<- | [<- | []]] Hext.
    + exists "resource storage_account". reflexivity.
    + discriminate Hext.
Defined.

Lemma load_files_aborts (E : env) (dir : string) (names : list string) :
  (exists filename,
      In filename names /\ Py.endswith ".tf" filename = true /\
      file_content E (path_join dir filename) = None) ->
  forall documents t,
    exists e filename,
      fst (load_files E dir names documents t) = Raised e /\
      In filename names /\ Py.endswith ".tf" filename = true /\
      fst (read_file E (path_join dir filename) []) = Raised e.
Proof.
  induction names as [|name rest IH];
    intros (filename & Hin & Hext & Hnone) docs t; [destruct Hin|].
  cbn [load_files]. destruct (Py.endswith ".tf" name) eqn:Hname.
  - unfold bind. rewrite read_file_run.
    destruct (file_content E (path_join dir name)) as [content|] eqn:Hc.
    + destruct (IH) with (documents := docs ++ [Document content
                 (<["source" := name]>
                    (<["type" := Py.replace ".tf" EmptyString name]> ∅))])
                (t := t) as (e & f & He & Hf & Hfext & Hread).
      { exists filename. destruct Hin as [->|Hin]; [congruence|].
        now repeat split. }
      exists e, f. repeat split; try assumption. now right.
    + destruct (read_file_error E _ Hc) as (e & He).
      rewrite He. exists e, name. repeat split; try assumption. now left.
  - destruct (IH) with (documents := docs) (t := t)
      as (e & f & He & Hf & Hfext & Hread).
    { exists filename. destruct Hin as [->|Hin]; [congruence|].
      now repeat split. }
    exists e, f. repeat split; try assumption. now right.
Qed.

(** X14: One listed [.tf] name that is not a readable text file (a
    directory, a file that does not decode, or an entry that has vanished)
    makes [_load_templates] raise: the templates are loaded all or not at
    all.  The error is the one that opening and reading such an entry
    raises, and nothing else has been done. *)
Theorem load_templates_all_or_nothing (E : env) (dir : string)
    (names : list string) (t : list event) :
  fs E !! dir = Some (Dir names) ->
  (exists filename,
      In filename names /\ Py.endswith ".tf" filename = true /\
      file_content E (path_join dir filename) = None) ->
  exists e filename,
    _load_templates E dir t = (Raised e, t) /\
    In filename names /\ Py.endswith ".tf" filename = true /\
    fst (read_file E (path_join dir filename) []) = Raised e.
Proof.
  intros Hdir Hbad. unfold _load_templates, listdir, bind.
  rewrite Hdir. cbn [ret].
  destruct (load_files_aborts E dir names Hbad [] t)
    as (e & f & He & Hf & Hext & Hread).
  exists e, f. split; [|now repeat split].
  rewrite (surjective_pairing (load_files E dir names [] t)).
  now rewrite He, load_files_trace.
Qed.

Lemma load_templates_all_or_nothing_witness :
  exists e filename,
    _load_templates binary_env "/srv/templates" [] = (Raised e, []) /\
    In filename binary_listing /\ Py.endswith ".tf" filename = true /\
    fst (read_file binary_env (path_join "/srv/templates" filename) []) =
    Raised e.
Proof.
  apply (load_templates_all_or_nothing binary_env "/srv/templates"
           binary_listing []).
  - reflexivity.
  - exists "logo.tf". repeat split. right. now left.
Defined.

Example load_templates_undecodable :
  _load_templates binary_env "/srv/templates" [] =
  (Raised (Exn ValueError codec_error), []) /\
  _load_templates broken_env "/srv/templates" [] =
  (Raised (Exn OtherException
             "[Errno 21] Is a directory: '/srv/templates/modules.tf'"), []).
Proof. split; vm_compute; reflexivity. Qed.

(** [_load_templates] only reads the file system: whatever the directory
    holds, and also when it fails, it leaves the trace as it found it. *)
Theorem load_templates_offline (E : env) (dir : string) (t : list event) :
  snd (_load_templates E dir t) = t.
Proof.
  unfold _load_templates, listdir, bind, ret, raise.
  destruct (fs E !! dir) as [[names|content|detail]|]; try reflexivity.
  apply load_files_trace.
Qed.

Lemma label_of_plain_stem_witness :
  Py.replace ".tf" EmptyString "virtual_machine.tf" = "virtual_machine".
Proof.
  apply (label_of_plain_stem "virtual_machine"). reflexivity.
Defined.

(** ** Construction, further *)

Lemma load_files_frame (E : env) (dir : string) (names : list string) :
  forall documents t,
    fst (load_files E dir names documents t) =
    fst (load_files E dir names documents []).
Proof.
  induction names as [|filename rest IH]; intros docs t; [reflexivity|].
  cbn [load_files]. destruct (Py.endswith ".tf" filename); [|apply IH].
  unfold bind, read_file, ret, raise.
  destruct (fs E !! path_join dir filename) as [[entries|content|detail]|];
    try reflexivity.
  apply IH.
Qed.

Lemma load_templates_frame (E : env) (dir : string) (t : list event) :
  _load_templates E dir t = (result (_load_templates E dir), t).
Proof.
  rewrite (surjective_pairing (_load_templates E dir t)).
  rewrite load_templates_offline. f_equal.
  unfold result, _load_templates, listdir, bind, ret, raise.
  destruct (fs E !! dir) as [[names|content|detail]|]; try reflexivity.
  apply load_files_frame.
Qed.

(** X16: With the key set, a working embedding model and chat model, templates
    that load and an index that builds, [__init__] returns an engine on the
    given directory whose index holds the chunks of the loaded documents,
    after exactly two calls: the smoke test [embed_query("test")], then the
    index build on those chunks. *)
Theorem engine_init_builds_index (E : env) (dir : string) (n : nat)
    (documents : list document) (t : list event) :
  truthy (getenv E "OPENAI_API_KEY") = true ->
  new_embeddings E = Returned tt ->
  embed_query E "test" = Returned (S n) ->
  new_chat E = Returned tt ->
  result (_load_templates E dir) = Returned documents ->
  from_documents E (split_documents E documents) = Returned tt ->
  TerraformRAGEngine.__init__ E dir t =
  (Returned (Engine dir (split_documents E documents)),
   t ++ [EmbedQuery "test"; EmbedDocuments (split_documents E documents)]).
Proof.
  intros Hkey Hemb Htest Hchat Hload Hindex.
  unfold TerraformRAGEngine.__init__, _initialize_vector_store, try_except,
    bind, ret, raise, answer, emit.
  rewrite Hkey, Hemb, Htest, Hchat, load_templates_frame, Hload, Hindex.
  now rewrite <- app_assoc.
Qed.

Lemma engine_init_builds_index_witness :
  TerraformRAGEngine.__init__ sample_env "/srv/templates" [] =
  (Returned
     (Engine "/srv/templates"
        [template_document "storage.tf" "resource storage_account"]),
   [EmbedQuery "test";
    EmbedDocuments
      [template_document "storage.tf" "resource storage_account"]]).
Proof.
  apply (engine_init_builds_index sample_env "/srv/templates" 2
           [template_document "storage.tf" "resource storage_account"] []);
    reflexivity.
Defined.

(** X17: An embedding model that answers the smoke test with an empty vector
    stops [__init__]: the [ValueError] raised for it inside the [try] is
    caught by the same [try] and raised again behind the prefix of a failed
    initialisation; neither the templates nor the index are touched. *)
Theorem engine_init_empty_vector (E : env) (dir : string) (t : list event) :
  truthy (getenv E "OPENAI_API_KEY") = true ->
  new_embeddings E = Returned tt ->
  embed_query E "test" = Returned 0 ->
  TerraformRAGEngine.__init__ E dir t =
  (Raised (Exn ValueError
             "Failed to initialize OpenAI embeddings: Failed to generate embeddings"),
   t ++ [EmbedQuery "test"]).
Proof.
  intros Hkey Hemb Htest.
  unfold TerraformRAGEngine.__init__, try_except, bind, ret, raise, answer,
    emit.
  now rewrite Hkey, Hemb, Htest.
Qed.

Lemma engine_init_empty_vector_witness :
  TerraformRAGEngine.__init__ empty_vector_env "/srv/templates" [] =
  (Raised (Exn ValueError
             "Failed to initialize OpenAI embeddings: Failed to generate embeddings"),
   [EmbedQuery "test"]).
Proof.
  apply (engine_init_empty_vector empty_vector_env "/srv/templates" []);
    reflexivity.
Defined.

(** X18: A failure of [__init__] that is not a [ValueError] comes from loading
    the templates or building the index, after the smoke test has passed:
    the key check, the embedding model and the chat model only ever fail
    with [ValueError]. *)
Theorem engine_init_other_errors (E : env) (dir : string) (e : exn)
    (t : list event) :
  fst (TerraformRAGEngine.__init__ E dir t) = Raised e ->
  exn_cls e <> ValueError ->
  fst (_initialize_vector_store E dir (t ++ [EmbedQuery "test"])) = Raised e /\
  exists n, embed_query E "test" = Returned (S n).
Proof.
  unfold TerraformRAGEngine.__init__, try_except, bind, ret, raise, answer,
    emit.
  destruct (truthy (getenv E "OPENAI_API_KEY"));
    [|intros H Hcls; injection H as <-; now destruct Hcls].
  destruct (new_embeddings E) as [[]|e0];
    [|intros H Hcls; injection H as <-; now destruct Hcls].
  destruct (embed_query E "test") as [[|n]|e1];
    try (intros H Hcls; injection H as <-; now destruct Hcls).
  destruct (new_chat E) as [[]|e2];
    [|intros H Hcls; injection H as <-; now destruct Hcls].
  destruct (_initialize_vector_store E dir (t ++ [EmbedQuery "test"]))
    as [[store|e3] t3]; intros H Hcls; [discriminate H|].
  injection H as <-. split; [reflexivity | now exists n].
Qed.

Lemma engine_init_other_errors_witness :
  fst (_initialize_vector_store sample_env "/missing" [EmbedQuery "test"]) =
  Raised (Exn FileNotFoundError
            "[Errno 2] No such file or directory: '/missing'") /\
  exists n, embed_query sample_env "test" = Returned (S n).
Proof.
  apply (engine_init_other_errors sample_env "/missing"
           (Exn FileNotFoundError
              "[Errno 2] No such file or directory: '/missing'") []).
  - reflexivity.
  - discriminate.
Defined.

(** X19: Construction never talks to the chat model, the retriever or the
    document chain, and makes at most two network calls, both to the
    embedding side. *)
Theorem engine_init_network_calls (E : env) (dir : string) :
  let tr := trace (TerraformRAGEngine.__init__ E dir) in
  calls is_network tr <= 2 /\
  calls is_embedding_call tr = calls is_network tr.
Proof.
  unfold trace, TerraformRAGEngine.__init__, _initialize_vector_store,
    try_except, bind, ret, raise, answer, emit.
  destruct (truthy (getenv E "OPENAI_API_KEY")); [|cbn; lia].
  destruct (new_embeddings E) as [[]|e0]; [|cbn; lia].
  destruct (embed_query E "test") as [[|n]|e1]; try (cbn; lia).
  destruct (new_chat E) as [[]|e2]; [|cbn; lia].
  rewrite load_templates_frame.
  destruct (result (_load_templates E dir)) as [docs|e3]; [|cbn; lia].
  destruct (from_documents E (split_documents E docs)) as [[]|e4];
    cbn; lia.
Qed.

(** X20: A directory without any [.tf] file is not guarded against:
    [_initialize_vector_store] hands the empty list of chunks to
    [Chroma.from_documents].  If that call returns, the store is empty; if
    it raises, as the index does on an empty list, its error is the error of
    the construction. *)
Theorem empty_directory_builds_empty_index (E : env) (dir : string)
    (names : list string) (t : list event) :
  fs E !! dir = Some (Dir names) ->
  Forall (fun name => Py.endswith ".tf" name = false) names ->
  _initialize_vector_store E dir t =
  (match from_documents E [] with
   | Returned _ => Returned []
   | Raised e => Raised e
   end,
   t ++ [EmbedDocuments []]).
Proof.
  intros Hdir Hnames.
  unfold _initialize_vector_store, _load_templates, listdir, bind, emit,
    answer, ret.
  rewrite Hdir, load_files_run.
  - assert (Hnone : List.filter (Py.endswith ".tf") names = []).
    { clear Hdir. induction Hnames as [|name rest Hname _ IH];
        [reflexivity|]. cbn [List.filter]. now rewrite Hname. }
    rewrite Hnone. cbn [map app split_documents flat_map].
    now destruct (from_documents E []).
  - intros filename Hin Hext. rewrite List.Forall_forall in Hnames.
    rewrite (Hnames filename Hin) in Hext. discriminate Hext.
Qed.

Lemma empty_directory_builds_empty_index_witness :
  _initialize_vector_store docs_only_env "/srv/templates" [] =
  (Raised empty_index_error, [EmbedDocuments []]).
Proof.
  apply (empty_directory_builds_empty_index docs_only_env "/srv/templates"
           docs_only_listing []).
  - reflexivity.
  - repeat constructor.
Defined.

(** ** The agent *)

(** X21: Without the API key (unset or empty) the agent fails at once with its
    own [ValueError], before looking at the templates or calling anything;
    the engine's message for a missing key is never seen through the
    agent. *)
Theorem agent_init_requires_key (E : env) (t : list event) :
  truthy (getenv E "OPENAI_API_KEY") = false ->
  AzureTerraformAgent.__init__ E t =
  (Raised (Exn ValueError "Missing OPENAI_API_KEY environment variable"), t).
Proof.
  intros Hkey. unfold AzureTerraformAgent.__init__, bind, ret, raise.
  now rewrite Hkey.
Qed.

Lemma agent_init_requires_key_witness :
  AzureTerraformAgent.__init__ no_key_env [] =
  (Raised (Exn ValueError "Missing OPENAI_API_KEY environment variable"), []).
Proof.
  apply (agent_init_requires_key no_key_env []). reflexivity.
Defined.

(** X22: The agent's check is [os.path.exists], which a regular file
    passes: when [templates] is a file, the key is set, the embedding model
    passes its smoke test and the chat model is constructed, the agent fails
    only in [os.listdir], after the smoke test, with the error of a path
    that is not a directory: neither the agent's [FileNotFoundError] nor a
    [ValueError]. *)
Theorem agent_templates_not_a_directory (E : env) (content : string)
    (n : nat) (t : list event) :
  truthy (getenv E "OPENAI_API_KEY") = true ->
  fs E !! path_join (app_parent E) "templates" = Some (File content) ->
  new_embeddings E = Returned tt ->
  embed_query E "test" = Returned (S n) ->
  new_chat E = Returned tt ->
  AzureTerraformAgent.__init__ E t =
  (Raised (Exn OtherException
             ("[Errno 20] Not a directory: "
              +:+ Py.repr (path_join (app_parent E) "templates"))),
   t ++ [EmbedQuery "test"]).
Proof.
  intros Hkey Hfile Hemb Htest Hchat.
  unfold AzureTerraformAgent.__init__, TerraformRAGEngine.__init__,
    _initialize_vector_store, _load_templates, listdir, path_exists,
    try_except, bind, ret, raise, answer, emit.
  now rewrite Hkey, Hfile, Hemb, Htest, Hchat.
Qed.

Lemma agent_templates_not_a_directory_witness :
  AzureTerraformAgent.__init__ templates_is_file_env [] =
  (Raised (Exn OtherException "[Errno 20] Not a directory: '/srv/templates'"),
   [EmbedQuery "test"]).
Proof.
  apply (agent_templates_not_a_directory templates_is_file_env
           "not a directory" 2 []); reflexivity.
Defined.

(** X23: An agent that has been constructed had the key and an existing
    [templates] path next to the application; its engine works on that same
    path, and every chunk of its index carries the name of its file and the
    label derived from it. *)
Theorem agent_init_sound (E : env) (agent : AzureTerraformAgent.t)
    (t : list event) :
  fst (AzureTerraformAgent.__init__ E t) = Returned agent ->
  truthy (getenv E "OPENAI_API_KEY") = true /\
  path_exists E (path_join (app_parent E) "templates") = true /\
  AzureTerraformAgent.template_dir agent =
  path_join (app_parent E) "templates" /\
  TerraformRAGEngine.template_dir (AzureTerraformAgent.rag_engine agent) =
  AzureTerraformAgent.template_dir agent /\
  Forall labelled_by_file
    (vector_store (AzureTerraformAgent.rag_engine agent)).
Proof.
  unfold AzureTerraformAgent.__init__, TerraformRAGEngine.__init__,
    try_except, bind, ret, raise, answer, emit.
  destruct (truthy (getenv E "OPENAI_API_KEY")); [|intros H; discriminate H].
  destruct (path_exists E (path_join (app_parent E) "templates"));
    [|intros H; discriminate H].
  destruct (new_embeddings E) as [[]|e0];
    [|intros H; simpl in H; discriminate H].
  destruct (embed_query E "test") as [[|n]|e1];
    try (intros H; simpl in H; discriminate H).
  destruct (new_chat E) as [[]|e2];
    [|intros H; simpl in H; discriminate H].
  destruct (_initialize_vector_store E _ _) as [[store|e3] t3] eqn:Hstore;
    intros H; simpl in H; [|discriminate H].
  injection H as <-. cbn. repeat split.
  exact (vector_store_labelled E _ _ _ _ Hstore).
Qed.

Lemma agent_init_sound_witness :
  truthy (getenv sample_env "OPENAI_API_KEY") = true /\
  path_exists sample_env (path_join (app_parent sample_env) "templates")
  = true /\
  "/srv/templates" = path_join (app_parent sample_env) "templates" /\
  "/srv/templates" = "/srv/templates" /\
  Forall labelled_by_file
    [template_document "storage.tf" "resource storage_account"].
Proof.
  apply (agent_init_sound sample_env
           (AzureTerraformAgent.Agent "/srv/templates"
              (Engine "/srv/templates"
                 [template_document "storage.tf" "resource storage_account"]))
           []).
  reflexivity.
Defined.

(** ** The chat front end *)

Lemma generate_terraform_frame (E : env) (self : TerraformRAGEngine.t)
    (query : string) (t : list event) :
  generate_terraform E self query t =
  (result (generate_terraform E self query),
   t ++ trace (generate_terraform E self query)).
Proof.
  unfold trace, result, generate_terraform, try_except, bind.
  rewrite !validate_query_run.
  destruct (llm E ValidationPrompt query) as [content|e0];
    [destruct (scan_lines (response_lines content)) as [[|] reason]|];
    cbn [negb fst snd]; try reflexivity.
  rewrite !get_relevant_templates_run.
  unfold retrieval_chain, bind, emit, answer, raise, ret.
  repeat case_match; simplify_eq; try congruence; cbn [fst snd app];
    rewrite <- ?app_assoc; reflexivity.
Qed.

Lemma chat_run (E : env) (agent : AzureTerraformAgent.t) (prompt : string) :
  azure_terraform_chat E agent prompt [] =
  (Returned tt,
   AppendMessage User prompt :: St StMarkdown prompt ::
   trace (generate_terraform E (AzureTerraformAgent.rag_engine agent) prompt)
   ++ match result (generate_terraform E
                      (AzureTerraformAgent.rag_engine agent) prompt) with
      | Returned code =>
          [St StMarkdown "### Generated Terraform Configuration";
           St StCode code; St StDownloadButton code;
           AppendMessage Assistant
             ("Generated Terraform Configuration:" +:+ String LF "```hcl"
              +:+ String LF code +:+ String LF "```");
           St StInfo usage_info]
      | Raised e =>
          match exn_cls e with
          | ValueError =>
              [St StWarning (exn_msg e); St StMarkdown scope_guidance;
               AppendMessage Assistant (warning_sign +:+ " " +:+ exn_msg e)]
          | _ =>
              [St StError
                 ("Error generating Terraform configuration: " +:+ exn_msg e)]
          end
      end).
Proof.
  unfold azure_terraform_chat, AzureTerraformAgent.generate_terraform,
    try_except, bind, emit.
  cbn [app]. rewrite generate_terraform_frame.
  destruct (result (generate_terraform E _ prompt)) as [code|e].
  - cbn [app]. rewrite <- !app_assoc. reflexivity.
  - destruct (exn_cls e); cbn [app]; rewrite <- ?app_assoc; reflexivity.
Qed.

(** X24: One chat turn never raises, whatever the pipeline does: every failure
    ends in a widget.  The user's prompt is recorded in the history and
    shown before anything else happens. *)
Theorem chat_turn_never_raises (E : env) (agent : AzureTerraformAgent.t)
    (prompt : string) :
  exists rest,
    azure_terraform_chat E agent prompt [] =
    (Returned tt,
     AppendMessage User prompt :: St StMarkdown prompt :: rest).
Proof.
  rewrite chat_run. eexists. reflexivity.
Qed.

(** X25: A query the validator rejects costs one model call and is answered
    with a warning that carries the reason, the scope guidance, and an
    assistant message in the history; [st.error] is not used. *)
Theorem chat_turn_rejected (E : env) (agent : AzureTerraformAgent.t)
    (prompt reason : string) :
  fst (_validate_query E prompt []) = Returned (false, reason) ->
  trace (azure_terraform_chat E agent prompt) =
  [AppendMessage User prompt; St StMarkdown prompt;
   LlmInvoke ValidationPrompt prompt;
   St StWarning ("Query is out of scope: " +:+ reason);
   St StMarkdown scope_guidance;
   AppendMessage Assistant
     (warning_sign +:+ " Query is out of scope: " +:+ reason)].
Proof.
  intros Hrej. unfold trace at 1. rewrite chat_run. cbn [snd].
  unfold trace, result, generate_terraform, try_except, bind.
  rewrite validate_query_run in *. cbn [fst] in Hrej.
  injection Hrej as Hrej. rewrite Hrej. reflexivity.
Qed.

Lemma chat_turn_rejected_witness :
  trace (azure_terraform_chat
           (validator_says ("valid: false" +:+ nl +:+ "reason: off topic"))
           sample_agent "how do I cook pasta?") =
  [AppendMessage User "how do I cook pasta?";
   St StMarkdown "how do I cook pasta?";
   LlmInvoke ValidationPrompt "how do I cook pasta?";
   St StWarning "Query is out of scope: off topic";
   St StMarkdown scope_guidance;
   AppendMessage Assistant
     (warning_sign +:+ " Query is out of scope: off topic")].
Proof.
  apply (chat_turn_rejected
           (validator_says ("valid: false" +:+ nl +:+ "reason: off topic"))
           sample_agent "how do I cook pasta?" "off topic").
  reflexivity.
Defined.

Lemma generate_terraform_no_messages (E : env) (self : TerraformRAGEngine.t)
    (query : string) :
  calls is_assistant_message (trace (generate_terraform E self query)) = 0.
Proof.
  pose proof (pipeline_events_hold E self query) as Hev.
  induction Hev as [|ev tr Hev _ IH]; [reflexivity|].
  unfold calls in *. cbn [List.filter].
  destruct ev as [| | | | | |r c]; try exact IH. destruct Hev.
Qed.

(** X26: A turn leaves an assistant message in the history exactly when
    the pipeline returned a configuration, which is then shown as code, or
    raised a [ValueError], whose message is then shown as a warning; any
    other failure leaves the history with the user's prompt alone, and the
    last thing the turn does is to show it with [st.error]. *)
Theorem chat_turn_history (E : env) (agent : AzureTerraformAgent.t)
    (prompt : string) :
  let tr := trace (azure_terraform_chat E agent prompt) in
  match result (generate_terraform E
                  (AzureTerraformAgent.rag_engine agent) prompt) with
  | Returned code =>
      calls is_assistant_message tr = 1 /\ In (St StCode code) tr
  | Raised e =>
      match exn_cls e with
      | ValueError =>
          calls is_assistant_message tr = 1 /\
          In (St StWarning (exn_msg e)) tr
      | _ =>
          calls is_assistant_message tr = 0 /\
          last tr =
          Some (St StError
                  ("Error generating Terraform configuration: "
                   +:+ exn_msg e))
      end
  end.
Proof.
  cbv zeta. unfold trace at 1 2 3 4 5 6 7 8. rewrite chat_run. cbn [snd].
  assert (Hcalls : forall tail,
             calls is_assistant_message
               (AppendMessage User prompt :: St StMarkdown prompt ::
                trace (generate_terraform E
                         (AzureTerraformAgent.rag_engine agent) prompt)
                ++ tail) = calls is_assistant_message tail).
  { intros tail. unfold calls. cbn [List.filter is_assistant_message].
    rewrite List.filter_app, length_app.
    fold (calls is_assistant_message
            (trace (generate_terraform E
                      (AzureTerraformAgent.rag_engine agent) prompt))).
    now rewrite generate_terraform_no_messages. }
  destruct (result (generate_terraform E _ prompt)) as [code|e].
  - rewrite Hcalls. split; [reflexivity|].
    right. right. apply in_or_app. right. right. now left.
  - destruct (exn_cls e); rewrite Hcalls.
    + split; [reflexivity|]. right. right. apply in_or_app. right. now left.
    + split; [reflexivity|]. rewrite !app_comm_cons. apply last_snoc.
    + split; [reflexivity|]. rewrite !app_comm_cons. apply last_snoc.
Qed.

(** ** The documented reply format *)

Lemma str_app_assoc (a b c : string) : (a +:+ b) +:+ c = a +:+ (b +:+ c).
Proof.
  induction a as [|x a IH]; [reflexivity|].
  change (String x a +:+ b) with (String x (a +:+ b)).
  change (String x (a +:+ b) +:+ c) with (String x ((a +:+ b) +:+ c)).
  now rewrite IH.
Qed.

Lemma lower_app (a b : string) :
  Py.lower (a +:+ b) = Py.lower a +:+ Py.lower b.
Proof.
  induction a as [|x a IH]; [reflexivity|].
  change (String x a +:+ b) with (String x (a +:+ b)).
  cbn [Py.lower]. now rewrite IH.
Qed.

Lemma has_char_app (c : ascii) (a b : string) :
  has_char c (a +:+ b) = has_char c a || has_char c b.
Proof.
  induction a as [|x a IH]; [reflexivity|].
  change (String x a +:+ b) with (String x (a +:+ b)).
  cbn [has_char]. now rewrite IH, orb_assoc.
Qed.

Lemma has_LF_lower (s : string) : has_char LF (Py.lower s) = has_char LF s.
Proof.
  induction s as [|x s IH]; [reflexivity|].
  cbn [Py.lower has_char]. now rewrite lower_char_LF, IH.
Qed.

Lemma rstrip_app_fixed (a b : string) :
  Py.rstrip b = b -> b <> EmptyString -> Py.rstrip (a +:+ b) = a +:+ b.
Proof.
  intros Hb Hne. induction a as [|x a IH]; [exact Hb|].
  change (String x a +:+ b) with (String x (a +:+ b)).
  cbn [Py.rstrip]. rewrite IH.
  destruct (a +:+ b) as [|y r] eqn:Hab; [|reflexivity].
  destruct a as [|z a'];
    [change (EmptyString +:+ b) with b in Hab; congruence|].
  change (String z a' +:+ b) with (String z (a' +:+ b)) in Hab.
  discriminate Hab.
Qed.

Lemma lstrip_strip (s : string) : Py.lstrip (Py.strip s) = Py.strip s.
Proof.
  unfold Py.strip. destruct (lstrip_head s) as [H | (c & r & H & Hc)].
  - now rewrite H.
  - rewrite H. destruct (rstrip_head c r Hc) as [r' Hr'].
    rewrite Hr'. cbn [Py.lstrip]. now rewrite Hc.
Qed.

Lemma trimmed_rstrip (s : string) : trimmed s -> Py.rstrip s = s.
Proof.
  unfold trimmed, Py.strip. intros H. rewrite <- H at 1.
  now rewrite rstrip_idem.
Qed.

Lemma trimmed_lstrip (s : string) : trimmed s -> Py.lstrip s = s.
Proof.
  unfold trimmed. intros H. rewrite <- H at 1. now rewrite lstrip_strip.
Qed.

Lemma documented_reply_lines (v text : string) :
  has_char LF v = false ->
  has_char LF text = false ->
  trimmed text ->
  text <> EmptyString ->
  response_lines ("valid: " +:+ v +:+ nl +:+ "reason: " +:+ text) =
  ["valid: " +:+ Py.lower v; "reason: " +:+ Py.lower text].
Proof.
  intros Hv Htext Htrim Hne. unfold response_lines, Py.strip.
  change (Py.lstrip ("valid: " +:+ v +:+ nl +:+ "reason: " +:+ text))
    with ("valid: " +:+ v +:+ nl +:+ "reason: " +:+ text).
  rewrite <- !str_app_assoc.
  rewrite rstrip_app_fixed by (auto using trimmed_rstrip).
  rewrite !lower_app.
  change (Py.lower "valid: ") with "valid: ".
  change (Py.lower nl) with nl.
  change (Py.lower "reason: ") with "reason: ".
  rewrite (str_app_assoc (("valid: " +:+ Py.lower v) +:+ nl)).
  rewrite (str_app_assoc ("valid: " +:+ Py.lower v) nl).
  change (nl +:+ "reason: " +:+ Py.lower text)
    with (String LF ("reason: " +:+ Py.lower text)).
  rewrite split_app_sep.
  - rewrite split_plain; [reflexivity|].
    rewrite has_char_app, has_LF_lower, Htext. reflexivity.
  - rewrite has_char_app, has_LF_lower, Hv. reflexivity.
Qed.

(** X27: A reply in the format the validation prompt asks for, a line
    [valid: <v>] followed by a line [reason: <text>], is read back as its
    two fields: the boolean is whether [v] contains [true] in any case, and
    the reason is [text] in lower case (for a non-empty [text] without white
    space at its ends). *)
Theorem validate_reads_documented_format (E : env) (query v text : string)
    (t : list event) :
  has_char LF v = false ->
  has_char LF text = false ->
  trimmed text ->
  text <> EmptyString ->
  llm E ValidationPrompt query =
  Returned ("valid: " +:+ v +:+ nl +:+ "reason: " +:+ text) ->
  fst (_validate_query E query t) =
  Returned (Py.contains "true" (Py.lower v), Py.lower text).
Proof.
  intros Hv Htext Htrim Hne Hllm.
  rewrite validate_query_run, Hllm. cbn [fst]. f_equal.
  rewrite documented_reply_lines by assumption.
  unfold scan_lines. cbn [fold_left].
  rewrite (scan_line_eq false "Invalid query format").
  change (Py.startswith "valid:" ("valid: " +:+ Py.lower v)) with true.
  cbn iota. rewrite scan_line_eq.
  change (Py.startswith "valid:" ("reason: " +:+ Py.lower text)) with false.
  change (Py.startswith "reason:" ("reason: " +:+ Py.lower text)) with true.
  cbn iota.
  change (Py.slice_from 7 ("reason: " +:+ Py.lower text))
    with (String " " (Py.lower text)).
  f_equal.
  - rewrite lower_app, lower_idem. reflexivity.
  - unfold Py.strip.
    change (Py.lstrip (String " " (Py.lower text)))
      with (Py.lstrip (Py.lower text)).
    rewrite lstrip_lower, rstrip_lower.
    now rewrite (trimmed_lstrip text Htrim), (trimmed_rstrip text Htrim).
Qed.

Lemma validate_reads_documented_format_witness :
  fst (_validate_query
         (validator_says
            ("valid: " +:+ "True" +:+ nl +:+ "reason: " +:+ "Storage Account"))
         "create storage" []) =
  Returned (true, "storage account").
Proof.
  apply (validate_reads_documented_format
           (validator_says
              ("valid: " +:+ "True" +:+ nl +:+ "reason: "
               +:+ "Storage Account"))
           "create storage" "True" "Storage Account" []).
  - reflexivity.
  - reflexivity.
  - reflexivity.
  - discriminate.
  - reflexivity.
Defined.
